(** * Go call-graph pipeline of code-pathfinder: a shallow embedding

    The development follows the Go packages of [sast-engine/graph/callgraph]:
    - [GoStrings]  the functions of Go's [strings] package the code calls;
    - [Core]       the data of package [core] (type info, stdlib loader,
                   module registry, import map);
    - [Resolution] [go_types.go] (scopes, return types, the normalizer) and the
                   import classifier [GoImportResolver];
    - [Extraction] Pass 2b, [ExtractGoVariableAssignments] and its helpers;
    - [Builder]    [go_version.go] and the call-target resolver.

    Go strings are byte sequences, as Rocq's [string] is; Go maps are [gmap]s. *)

From Stdlib Require Import String Ascii List ZArith Lia Bool QArith Sorted.
From stdpp Require Import gmap strings list fin_maps.

Open Scope string_scope.

(* ===================================================================== *)
(** * Package [strings] of the Go library, on byte strings                *)
(* ===================================================================== *)

Module GoStrings.

(** [s[n:]] *)
Fixpoint drop (n : nat) (s : string) : string :=
  match n, s with
  | O, _ => s
  | S n', String _ s' => drop n' s'
  | S _, EmptyString => EmptyString
  end.

(** [s[:n]] *)
Fixpoint take (n : nat) (s : string) : string :=
  match n, s with
  | O, _ => EmptyString
  | S n', String c s' => String c (take n' s')
  | S _, EmptyString => EmptyString
  end.

(** [strings.HasPrefix(s, prefix)] *)
Definition HasPrefix (s prefix : string) : bool := String.prefix prefix s.

(** [strings.TrimPrefix(s, prefix)]: one occurrence is removed, not all. *)
Definition TrimPrefix (s prefix : string) : string :=
  if HasPrefix s prefix then drop (String.length prefix) s else s.

(** [strings.Contains(s, substr)] *)
Fixpoint Contains (s substr : string) : bool :=
  if HasPrefix s substr then true
  else match s with
       | EmptyString => false
       | String _ s' => Contains s' substr
       end.

(** [strings.LastIndex(s, substr)]: byte index of the last occurrence, -1 when
    there is none. [i] is the index of the head of [s], [acc] the last
    occurrence seen so far. *)
Fixpoint LastIndex_from (s substr : string) (i acc : Z) : Z :=
  let acc' := if HasPrefix s substr then i else acc in
  match s with
  | EmptyString => acc'
  | String _ s' => LastIndex_from s' substr (i + 1) acc'
  end.

Definition LastIndex (s substr : string) : Z := LastIndex_from s substr 0 (-1).

(** [strings.Split(s, sep)] for a one-byte separator: the fields between the
    separators, at least one field. *)
Fixpoint SplitByte (s : string) (sep : ascii) : list string :=
  match s with
  | EmptyString => [EmptyString]
  | String c s' =>
      if Ascii.eqb c sep then EmptyString :: SplitByte s' sep
      else match SplitByte s' sep with
           | f :: fs => String c f :: fs
           | [] => [String c EmptyString]
           end
  end.

(** The bytes [strings.TrimSpace] removes that are ASCII:
    ['\t'], ['\n'], ['\v'], ['\f'], ['\r'], [' ']. *)
Definition isSpaceByte (c : ascii) : bool :=
  let n := nat_of_ascii c in
  ((9 <=? n)%nat && (n <=? 13)%nat) || (n =? 32)%nat.

Fixpoint TrimLeftSpace (s : string) : string :=
  match s with
  | String c s' => if isSpaceByte c then TrimLeftSpace s' else s
  | EmptyString => EmptyString
  end.

Fixpoint TrimRightSpace (s : string) : string :=
  match s with
  | EmptyString => EmptyString
  | String c s' =>
      match TrimRightSpace s' with
      | EmptyString => if isSpaceByte c then EmptyString else String c EmptyString
      | t => String c t
      end
  end.

(** [strings.TrimSpace] on ASCII text. *)
Definition TrimSpaceASCII (s : string) : string := TrimRightSpace (TrimLeftSpace s).

End GoStrings.

(* ===================================================================== *)
(** * Package [core]                                                      *)
(* ===================================================================== *)

Module Core.

(** [core.TypeInfo]. [Confidence] is a [float32] in the source; only the
    literals 1.0, 0.95 and 0.9 are ever stored, kept here as exact rationals. *)
Record TypeInfo := mkTypeInfo {
  TypeFQN : string;
  Confidence : Q;
  Source : string
}.

(** [core.GoReturnValue] and [core.GoStdlibFunction] (the fields read here). *)
Record GoReturnValue := mkReturn { RetType : string }.

Record GoStdlibFunction := mkStdlibFunction {
  FnName : string;
  Signature : string;
  Returns : list GoReturnValue
}.

(** The interface [core.GoStdlibLoader]: [GetFunction] answers [None] where the
    Go method returns a non-nil error. *)
Record GoStdlibLoader := mkLoader {
  ValidateStdlibImport : string -> bool;
  GetFunction : string -> string -> option GoStdlibFunction
}.

(** [core.GoModuleRegistry]; [StdlibLoader] is [None] for the nil interface. *)
Record GoModuleRegistry := mkRegistry {
  ModulePath : string;
  GoVersion : string;
  DirToImport : gmap string string;
  ImportToDir : gmap string string;
  StdlibLoader : option GoStdlibLoader
}.

Definition NewGoModuleRegistry : GoModuleRegistry :=
  mkRegistry "" "" ∅ ∅ None.

(** [core.GoImportMap]: local alias to import path. *)
Record GoImportMap := mkImportMap {
  PackageName : string;
  Imports : gmap string string
}.

End Core.

(* ===================================================================== *)
(** * Package [resolution]: [go_types.go]                                 *)
(* ===================================================================== *)

Module Resolution.
Import GoStrings Core.

Record Location := mkLocation { File : string; Line : nat }.

Record GoVariableBinding := mkBinding {
  VarName : string;
  Type_ : TypeInfo;
  AssignedFrom : string;
  Loc : Location
}.

(** [GoFunctionScope]: variable name to its bindings, latest last. *)
Record GoFunctionScope := mkScope {
  FunctionFQN : string;
  Variables : gmap string (list GoVariableBinding)
}.

Definition NewGoFunctionScope (functionFQN : string) : GoFunctionScope :=
  mkScope functionFQN ∅.

(** A Go map read at a missing key gives the zero value, the nil slice. *)
Definition slot (s : GoFunctionScope) (varName : string) : list GoVariableBinding :=
  default [] (Variables s !! varName).

Definition AddVariable (s : GoFunctionScope) (binding : GoVariableBinding) : GoFunctionScope :=
  mkScope (FunctionFQN s)
          (<[VarName binding := (slot s (VarName binding) ++ [binding])%list]> (Variables s)).

Definition GetVariable (s : GoFunctionScope) (varName : string) : option GoVariableBinding :=
  last (slot s varName).

Definition HasVariable (s : GoFunctionScope) (varName : string) : bool :=
  (0 <? length (slot s varName))%nat.

Definition GetAllBindings (s : GoFunctionScope) (varName : string) : list GoVariableBinding :=
  slot s varName.

(** [GoTypeInferenceEngine]. The Go engine holds pointers to scopes and
    [AddVariable] updates a scope in place; the engine is the only holder of
    the scopes it creates, so the store of scopes is the map itself and an
    in-place update of the scope found under a key is an update at that key. *)
Record GoTypeInferenceEngine := mkEngine {
  Scopes : gmap string GoFunctionScope;
  ReturnTypes : gmap string TypeInfo;
  Registry : option GoModuleRegistry
}.

Definition NewGoTypeInferenceEngine (registry : option GoModuleRegistry) : GoTypeInferenceEngine :=
  mkEngine ∅ ∅ registry.

Definition GetScope (e : GoTypeInferenceEngine) (functionFQN : string) : option GoFunctionScope :=
  Scopes e !! functionFQN.

Definition AddScope (e : GoTypeInferenceEngine) (scope : GoFunctionScope) : GoTypeInferenceEngine :=
  mkEngine (<[FunctionFQN scope := scope]> (Scopes e)) (ReturnTypes e) (Registry e).

Definition AddReturnType (e : GoTypeInferenceEngine) (functionFQN : string) (t : TypeInfo)
  : GoTypeInferenceEngine :=
  mkEngine (Scopes e) (<[functionFQN := t]> (ReturnTypes e)) (Registry e).

(** The names of the [switch] in the two normalizers. *)
Definition builtinTypeNames : list string :=
  [ "string"; "int"; "int8"; "int16"; "int32"; "int64";
    "uint"; "uint8"; "uint16"; "uint32"; "uint64"; "uintptr";
    "float32"; "float64"; "complex64"; "complex128";
    "bool"; "byte"; "rune"; "error" ].

Definition isBuiltinTypeName (t : string) : bool :=
  existsb (String.eqb t) builtinTypeNames.

Definition stdlibNormalizeType (rawType importPath : string) : string :=
  let t := TrimPrefix rawType "*" in
  let t := TrimPrefix t "[]" in
  if String.eqb t "" then ""
  else if isBuiltinTypeName t then "builtin." ++ t
  else if Contains t "." then t
  else importPath ++ "." ++ t.

(** The loop over [fn.Returns] of [GetReturnType]. *)
Fixpoint firstStdlibReturn (returns : list GoReturnValue) (importPath : string)
  : option TypeInfo :=
  match returns with
  | [] => None
  | ret :: rest =>
      if String.eqb (RetType ret) "" || String.eqb (RetType ret) "error"
      then firstStdlibReturn rest importPath
      else
        let typeFQN := stdlibNormalizeType (RetType ret) importPath in
        if String.eqb typeFQN "" then firstStdlibReturn rest importPath
        else Some (mkTypeInfo typeFQN 1 "stdlib")
  end.

(** [GetReturnType]: [None] is the Go result [(nil, false)]. *)
Definition GetReturnType (e : GoTypeInferenceEngine) (functionFQN : string) : option TypeInfo :=
  match ReturnTypes e !! functionFQN with
  | Some typeInfo => Some typeInfo
  | None =>
      match Registry e with
      | None => None
      | Some reg =>
          match StdlibLoader reg with
          | None => None
          | Some loader =>
              let dotIdx := LastIndex functionFQN "." in
              if (dotIdx <=? 0)%Z then None
              else
                let importPath := take (Z.to_nat dotIdx) functionFQN in
                let funcName := drop (Z.to_nat (dotIdx + 1)) functionFQN in
                if negb (ValidateStdlibImport loader importPath) then None
                else match GetFunction loader importPath funcName with
                     | None => None
                     | Some fn => firstStdlibReturn (Returns fn) importPath
                     end
          end
      end
  end.

(** ** The import classifier, [GoImportResolver] *)

Inductive ImportType := ImportUnknown | ImportStdlib | ImportThirdParty | ImportLocal.

(** The resolver holds a registry pointer, which may be nil. *)
Record GoImportResolver := NewGoImportResolver { registry : option GoModuleRegistry }.

Definition isStdlibImportFallback (importPath : string) : bool :=
  if HasPrefix importPath "internal/" then false
  else negb (Contains importPath ".").

Definition isStdlibImport (r : GoImportResolver) (importPath : string) : bool :=
  match registry r with
  | Some reg =>
      match StdlibLoader reg with
      | Some loader => ValidateStdlibImport loader importPath
      | None => isStdlibImportFallback importPath
      end
  | None => isStdlibImportFallback importPath
  end.

Definition ClassifyImport (r : GoImportResolver) (importPath : string) : ImportType :=
  if isStdlibImport r importPath then ImportStdlib
  else if HasPrefix importPath "." then ImportLocal
  else if match registry r with
          | Some reg => negb (ModulePath reg =? "") && HasPrefix importPath (ModulePath reg)
          | None => false
          end
       then ImportLocal
       else ImportThirdParty.

End Resolution.

(* ===================================================================== *)
(** * Package [extraction]: Pass 2b                                       *)
(* ===================================================================== *)

Module Extraction.
Import GoStrings Core Resolution.

(** ** The syntax tree

    A tree-sitter node, as the code reads it: its type, the text it spans
    ([Content]), the row it starts on (0-based, [StartPoint().Row]) and its
    children in source order.  A child may sit under a field name and is
    named or anonymous (operators and punctuation are anonymous). *)
Inductive Node : Type :=
| MkNode (ntype : string) (text : string) (row : nat) (kids : list Kid)
with Kid : Type :=
| MkKid (field : option string) (named : bool) (child : Node).

Definition NodeType (n : Node) : string := let 'MkNode t _ _ _ := n in t.
Definition Content (n : Node) : string := let 'MkNode _ c _ _ := n in c.
Definition StartRow (n : Node) : nat := let 'MkNode _ _ r _ := n in r.
Definition Kids (n : Node) : list Kid := let 'MkNode _ _ _ ks := n in ks.
Definition Child (k : Kid) : Node := let 'MkKid _ _ c := k in c.

Definition isField (name : string) (f : option string) : bool :=
  match f with Some g => g =? name | None => false end.

(** [k (node.ChildByFieldName(name))] when the child exists, [dflt] when it is
    nil.  The continuation form lets recursive functions descend into the
    child they select. *)
Definition onField {A : Type} (name : string) (k : Node -> A) (dflt : A)
  : list Kid -> A :=
  fix go (ks : list Kid) : A :=
    match ks with
    | [] => dflt
    | MkKid f _ c :: ks' => if isField name f then k c else go ks'
    end.

Definition ChildByFieldName (n : Node) (name : string) : option Node :=
  onField name Some None (Kids n).

(** [k (node.NamedChild(0))] when [NamedChildCount() > 0], [dflt] otherwise. *)
Definition onFirstNamed {A : Type} (k : Node -> A) (dflt : A) : list Kid -> A :=
  fix go (ks : list Kid) : A :=
    match ks with
    | [] => dflt
    | MkKid _ nm c :: ks' => if nm then k c else go ks'
    end.

(** The loop [for i := 0; i < NamedChildCount(); i++ { step(NamedChild(i)) }]
    over a state. *)
Definition forNamed {S : Type} (step : Node -> S -> S) : list Kid -> S -> S :=
  fix go (ks : list Kid) (st : S) : S :=
    match ks with
    | [] => st
    | MkKid _ nm c :: ks' => go ks' (if nm then step c st else st)
    end.

Definition NamedChildren (n : Node) : list Node :=
  forNamed (fun c acc => (acc ++ [c])%list) (Kids n) [].

(** [golangpkg.VariableInfo], the fields Pass 2b reads. *)
Record VariableInfo := mkVariableInfo {
  Name : string;
  Value : string;
  LineNumber : nat
}.

(** Modelled from the spec: [golangpkg.ParseShortVarDeclaration] and
    [golangpkg.ParseAssignment] are not among the sources; only their calls
    are.  The spec has Pass 2b record a binding "for every assigned name" of an
    assignment node, at the assignment's position: one entry per expression on
    the left-hand side, carrying the right-hand side's text and the 1-based
    line of the assignment.  [assignedNames] lists them all. *)
Definition assignedNames (node : Node) : list VariableInfo :=
  match ChildByFieldName node "left" with
  | None => []
  | Some lhs =>
      let value := match ChildByFieldName node "right" with
                   | Some rhs => Content rhs
                   | None => ""
                   end in
      map (fun target => mkVariableInfo (Content target) value (S (StartRow node)))
          (NamedChildren lhs)
  end.

(** Modelled from the spec: [golangpkg.ParseShortVarDeclaration] reports every
    assigned name; [processShortVarDeclaration] has its own guard for the
    blank identifier. *)
Definition ParseShortVarDeclaration_model : Node -> list VariableInfo := assignedNames.

(** Modelled from the spec: [golangpkg.ParseAssignment].  "Blank identifiers
    are skipped on the LHS", and [processAssignmentStatement] binds whatever
    the helper reports, so the helper reports the assigned names other than
    [_]. *)
Definition ParseAssignment_model (node : Node) : list VariableInfo :=
  List.filter (fun v => negb (Name v =? "_")) (assignedNames node).

(** [extractReceiverType]: the type of the first [parameter_declaration] that
    has one, without a leading [*]. *)
Definition extractReceiverType (receiverNode : Node) : string :=
  (fix go (ks : list Kid) : string :=
     match ks with
     | [] => ""
     | MkKid _ nm param :: ks' =>
         if nm && (NodeType param =? "parameter_declaration") then
           match ChildByFieldName param "type" with
           | Some typeNode => TrimPrefix (Content typeNode) "*"
           | None => go ks'
           end
         else go ks'
     end) (Kids receiverNode).

Definition extractGoFunctionName (funcNode : Node) (importMap : option GoImportMap) : string :=
  if NodeType funcNode =? "identifier" then Content funcNode
  else if NodeType funcNode =? "selector_expression" then
    match ChildByFieldName funcNode "field" with
    | None => ""
    | Some fieldNode =>
        let fieldName := Content fieldNode in
        match ChildByFieldName funcNode "operand" with
        | None => fieldName
        | Some operandNode =>
            let operandName := Content operandNode in
            match importMap with
            | Some im =>
                match Imports im !! operandName with
                | Some importPath => importPath ++ "." ++ fieldName
                | None => fieldName
                end
            | None => fieldName
            end
        end
    end
  else "".

(** [normalizeStdlibReturnType], the extraction package's own copy of the
    normalizer. *)
Definition normalizeStdlibReturnType (rawType importPath : string) : string :=
  let t := rawType in
  let t := TrimPrefix t "*" in
  let t := TrimPrefix t "[]" in
  if t =? "" then ""
  else if isBuiltinTypeName t then "builtin." ++ t
  else if Contains t "." then t
  else importPath ++ "." ++ t.

(** The loop over [fn.Returns] of [inferTypeFromStdlibFunction]. *)
Fixpoint firstRegistryReturn (returns : list GoReturnValue) (importPath : string)
  : option TypeInfo :=
  match returns with
  | [] => None
  | ret :: rest =>
      if (RetType ret =? "") || (RetType ret =? "error")
      then firstRegistryReturn rest importPath
      else
        let typeFQN := normalizeStdlibReturnType (RetType ret) importPath in
        if typeFQN =? "" then firstRegistryReturn rest importPath
        else Some (mkTypeInfo typeFQN (9 # 10) "stdlib_registry")
  end.

Definition inferTypeFromStdlibFunction (importPath funcName : string)
    (registry : GoModuleRegistry) : option TypeInfo :=
  match StdlibLoader registry with
  | None => None
  | Some loader =>
      if negb (ValidateStdlibImport loader importPath) then None
      else match GetFunction loader importPath funcName with
           | None => None
           | Some fn =>
               match Returns fn with
               | [] => None
               | returns => firstRegistryReturn returns importPath
               end
           end
  end.

Definition inferTypeFromVariable (varName functionFQN : string)
    (typeEngine : GoTypeInferenceEngine) : option TypeInfo :=
  match GetScope typeEngine functionFQN with
  | None => None
  | Some scope =>
      match Variables scope !! varName with
      | None => None
      | Some bindings => Type_ <$> last bindings
      end
  end.

(** ** What Pass 2b takes from outside this package

    The parse helpers of package [golang], the type-string parser of an
    earlier pass, Go's [path/filepath] and the tree-sitter parser are used by
    the code below but defined elsewhere; Pass 2b is stated over any host
    providing them.  [ParseGoTypeString] and [ParseCtx] answer [None] / [inr]
    where the Go functions return an error; [Abs] answers [None] on error. *)
Record Host := mkHost {
  ParseShortVarDeclaration : Node -> list VariableInfo;
  ParseAssignment : Node -> list VariableInfo;
  ParseGoTypeString : string -> GoModuleRegistry -> string -> option TypeInfo;
  Dir : string -> string;
  IsAbs : string -> bool;
  Abs : string -> option string;
  ParseCtx : string -> Node + string
}.

Section Pass2b.
Context (host : Host).

Definition inferTypeFromFunctionCall (callNode : Node) (filePath : string)
    (typeEngine : GoTypeInferenceEngine) (registry : GoModuleRegistry)
    (importMap : option GoImportMap) : option TypeInfo :=
  match ChildByFieldName callNode "function" with
  | None => None
  | Some functionNode =>
      let funcName := extractGoFunctionName functionNode importMap in
      if funcName =? "" then None
      else
        let funcName :=
          if negb (Contains funcName ".") then
            match DirToImport registry !! Dir host filePath with
            | Some packagePath => packagePath ++ "." ++ funcName
            | None => funcName
            end
          else funcName in
        match GetReturnType typeEngine funcName with
        | Some typeInfo => Some typeInfo
        | None =>
            let idx := LastIndex funcName "." in
            if (0 <? idx)%Z then
              inferTypeFromStdlibFunction (take (Z.to_nat idx) funcName)
                                          (drop (Z.to_nat (idx + 1)) funcName) registry
            else None
        end
  end.

Definition inferTypeFromCompositeLiteral (literalNode : Node) (filePath : string)
    (registry : GoModuleRegistry) : option TypeInfo :=
  match ChildByFieldName literalNode "type" with
  | None => None
  | Some typeNode => ParseGoTypeString host (Content typeNode) registry filePath
  end.

Definition literalType (typeFQN : string) : option TypeInfo :=
  Some (mkTypeInfo typeFQN 1 "literal").

(** [inferTypeFromRHS], with [inferTypeFromUnaryExpression] in its
    [unary_expression] case: the operator is read first, then the operand, and
    only [&] recurses. *)
Fixpoint inferTypeFromRHS (rhsNode : Node) (filePath functionFQN : string)
    (typeEngine : GoTypeInferenceEngine) (registry : GoModuleRegistry)
    (importMap : option GoImportMap) {struct rhsNode} : option TypeInfo :=
  match rhsNode with
  | MkNode nodeType text _ kids =>
      if (nodeType =? "interpreted_string_literal") || (nodeType =? "raw_string_literal")
      then literalType "builtin.string"
      else if nodeType =? "int_literal" then literalType "builtin.int"
      else if nodeType =? "float_literal" then literalType "builtin.float64"
      else if nodeType =? "imaginary_literal" then literalType "builtin.complex128"
      else if (nodeType =? "true") || (nodeType =? "false") then literalType "builtin.bool"
      else if nodeType =? "rune_literal" then literalType "builtin.rune"
      else if nodeType =? "nil" then literalType "builtin.nil"
      else if nodeType =? "call_expression" then
        inferTypeFromFunctionCall rhsNode filePath typeEngine registry importMap
      else if nodeType =? "identifier" then
        inferTypeFromVariable text functionFQN typeEngine
      else if nodeType =? "composite_literal" then
        inferTypeFromCompositeLiteral rhsNode filePath registry
      else if nodeType =? "unary_expression" then
        match ChildByFieldName rhsNode "operator" with
        | None => None
        | Some operatorNode =>
            onField "operand"
              (fun operandNode =>
                 if Content operatorNode =? "&"
                 then inferTypeFromRHS operandNode filePath functionFQN
                                       typeEngine registry importMap
                 else None)
              None kids
        end
      else if nodeType =? "expression_list" then
        onFirstNamed
          (fun firstChild =>
             inferTypeFromRHS firstChild filePath functionFQN typeEngine registry importMap)
          None kids
      else None
  end.

(** "Get or create function scope" then "add variable binding to scope": the
    scope found (or the new one, stored under its own FQN) receives the
    binding in place. *)
Definition bindInScope (typeEngine : GoTypeInferenceEngine) (functionFQN : string)
    (binding : GoVariableBinding) : GoTypeInferenceEngine :=
  match GetScope typeEngine functionFQN with
  | Some scope =>
      mkEngine (<[functionFQN := AddVariable scope binding]> (Scopes typeEngine))
               (ReturnTypes typeEngine) (Registry typeEngine)
  | None =>
      let scope := NewGoFunctionScope functionFQN in
      let typeEngine := AddScope typeEngine scope in
      mkEngine (<[functionFQN := AddVariable scope binding]> (Scopes typeEngine))
               (ReturnTypes typeEngine) (Registry typeEngine)
  end.

Definition newBinding (varInfo : VariableInfo) (typeInfo : TypeInfo) (filePath : string)
  : GoVariableBinding :=
  mkBinding (Name varInfo) typeInfo (Value varInfo)
            (mkLocation filePath (LineNumber varInfo)).

(** The body of the loop of [processShortVarDeclaration]. *)
Definition shortVarStep (rhsNode : Node) (filePath functionFQN : string)
    (registry : GoModuleRegistry) (importMap : option GoImportMap)
    (typeEngine : GoTypeInferenceEngine) (varInfo : VariableInfo) : GoTypeInferenceEngine :=
  if Name varInfo =? "_" then typeEngine
  else
    match inferTypeFromRHS rhsNode filePath functionFQN typeEngine registry importMap with
    | None => typeEngine
    | Some typeInfo => bindInScope typeEngine functionFQN (newBinding varInfo typeInfo filePath)
    end.

Definition processShortVarDeclaration (node : Node) (filePath functionFQN : string)
    (typeEngine : GoTypeInferenceEngine) (registry : GoModuleRegistry)
    (importMap : option GoImportMap) : GoTypeInferenceEngine :=
  match ParseShortVarDeclaration host node with
  | [] => typeEngine
  | varInfos =>
      match ChildByFieldName node "right" with
      | None => typeEngine
      | Some rhsNode =>
          fold_left (shortVarStep rhsNode filePath functionFQN registry importMap)
                    varInfos typeEngine
      end
  end.

(** The body of the loop of [processAssignmentStatement]. *)
Definition assignmentStep (rhsNode : Node) (filePath functionFQN : string)
    (registry : GoModuleRegistry) (importMap : option GoImportMap)
    (typeEngine : GoTypeInferenceEngine) (varInfo : VariableInfo) : GoTypeInferenceEngine :=
  match inferTypeFromRHS rhsNode filePath functionFQN typeEngine registry importMap with
  | None => typeEngine
  | Some typeInfo => bindInScope typeEngine functionFQN (newBinding varInfo typeInfo filePath)
  end.

Definition processAssignmentStatement (node : Node) (filePath functionFQN : string)
    (typeEngine : GoTypeInferenceEngine) (registry : GoModuleRegistry)
    (importMap : option GoImportMap) : GoTypeInferenceEngine :=
  match ParseAssignment host node with
  | [] => typeEngine
  | varInfos =>
      match ChildByFieldName node "right" with
      | None => typeEngine
      | Some rhsNode =>
          fold_left (assignmentStep rhsNode filePath functionFQN registry importMap)
                    varInfos typeEngine
      end
  end.

(** The function context a node establishes for itself and its subtree. *)
Definition functionContext (node : Node) (packagePath currentFunctionFQN : string) : string :=
  if NodeType node =? "function_declaration" then
    match ChildByFieldName node "name" with
    | Some nameNode => packagePath ++ "." ++ Content nameNode
    | None => currentFunctionFQN
    end
  else if NodeType node =? "method_declaration" then
    match ChildByFieldName node "name", ChildByFieldName node "receiver" with
    | Some nameNode, Some receiverNode =>
        let receiverType := extractReceiverType receiverNode in
        if negb (receiverType =? "")
        then packagePath ++ "." ++ receiverType ++ "." ++ Content nameNode
        else currentFunctionFQN
    | _, _ => currentFunctionFQN
    end
  else currentFunctionFQN.

(** What the [switch] of [traverseForVariableAssignments] does to the engine
    at the node itself. *)
Definition visitNode (node : Node) (filePath currentFunctionFQN : string)
    (registry : GoModuleRegistry) (importMap : option GoImportMap)
    (typeEngine : GoTypeInferenceEngine) : GoTypeInferenceEngine :=
  if NodeType node =? "short_var_declaration" then
    if negb (currentFunctionFQN =? "")
    then processShortVarDeclaration node filePath currentFunctionFQN typeEngine registry importMap
    else typeEngine
  else if NodeType node =? "assignment_statement" then
    if negb (currentFunctionFQN =? "")
    then processAssignmentStatement node filePath currentFunctionFQN typeEngine registry importMap
    else typeEngine
  else typeEngine.

Fixpoint traverseForVariableAssignments (node : Node)
    (filePath packagePath currentFunctionFQN : string)
    (registry : GoModuleRegistry) (importMap : option GoImportMap)
    (typeEngine : GoTypeInferenceEngine) {struct node} : GoTypeInferenceEngine :=
  match node with
  | MkNode _ _ _ kids =>
      let currentFunctionFQN := functionContext node packagePath currentFunctionFQN in
      let typeEngine :=
        visitNode node filePath currentFunctionFQN registry importMap typeEngine in
      forNamed
        (fun child typeEngine =>
           traverseForVariableAssignments child filePath packagePath currentFunctionFQN
                                          registry importMap typeEngine)
        kids typeEngine
  end.

(** The directory looked up in the registry: [filepath.Dir(filePath)], made
    absolute when it is relative and [filepath.Abs] succeeds. *)
Definition registryDir (filePath : string) : string :=
  let dirPath := Dir host filePath in
  if negb (IsAbs host dirPath) then
    match Abs host dirPath with
    | Some absPath => absPath
    | None => dirPath
    end
  else dirPath.

(** [ExtractGoVariableAssignments]: the engine after the call and the error
    returned ([None] for nil). *)
Definition ExtractGoVariableAssignments (filePath sourceCode : string)
    (typeEngine : GoTypeInferenceEngine) (registry : GoModuleRegistry)
    (importMap : option GoImportMap) : GoTypeInferenceEngine * option string :=
  match ParseCtx host sourceCode with
  | inr err => (typeEngine, Some err)
  | inl root =>
      let dirPath := registryDir filePath in
      match DirToImport registry !! dirPath with
      | None => (typeEngine, None)
      | Some packagePath =>
          (traverseForVariableAssignments root filePath packagePath ""
                                          registry importMap typeEngine, None)
      end
  end.

End Pass2b.

End Extraction.

(* ===================================================================== *)
(** * Package [builder]: [go_version.go] and call-target resolution       *)
(* ===================================================================== *)

Module Builder.
Import GoStrings Core Resolution.

Definition defaultGoVersion : string := "1.21".

(** ** [goVersionRegex], [(?m)^go\s+(\d+\.\d+)]

    The classes [\s] and [\d] and the byte [.] are pairwise disjoint, so the
    greedy reading of each [+] is the only way the pattern can match at a
    given start; the leftmost match is the first line start where that
    reading succeeds. *)
Definition isDigit (c : ascii) : bool :=
  let n := nat_of_ascii c in ((48 <=? n)%nat && (n <=? 57)%nat).

(** [\s] of Go's regexp syntax: tab, newline, form feed, carriage return, space. *)
Definition isRegexSpace (c : ascii) : bool :=
  let n := nat_of_ascii c in
  (n =? 9)%nat || (n =? 10)%nat || (n =? 12)%nat || (n =? 13)%nat || (n =? 32)%nat.

Fixpoint skipRegexSpace (s : string) : string :=
  match s with
  | String c s' => if isRegexSpace c then skipRegexSpace s' else s
  | EmptyString => EmptyString
  end.

(** The longest run of digits at the head of [s], and what follows it. *)
Fixpoint spanDigits (s : string) : string * string :=
  match s with
  | String c s' =>
      if isDigit c then let '(d, r) := spanDigits s' in (String c d, r)
      else (EmptyString, s)
  | EmptyString => (EmptyString, EmptyString)
  end.

(** [go\s+(\d+\.\d+)] anchored at the head of [s]: the captured group. *)
Definition matchGoDirective (s : string) : option string :=
  match s with
  | String "g" (String "o" (String c r)) =>
      if isRegexSpace c then
        let '(major, r1) := spanDigits (skipRegexSpace r) in
        match major, r1 with
        | String _ _, String "." r2 =>
            let '(minor, _) := spanDigits r2 in
            match minor with
            | String _ _ => Some (major ++ "." ++ minor)
            | EmptyString => None
            end
        | _, _ => None
        end
      else None
  | _ => None
  end.

(** [goVersionRegex.FindSubmatch(data)[1]]; [lineStart] tells whether [^]
    matches at the head of [s] (start of text, or just after a newline). *)
Fixpoint findGoDirective (lineStart : bool) (s : string) : option string :=
  match (if lineStart then matchGoDirective s else None) with
  | Some v => Some v
  | None =>
      match s with
      | EmptyString => None
      | String c s' => findGoDirective (Ascii.eqb c "010") s'
      end
  end.

Definition normalizeGoVersion (version : string) : string :=
  match SplitByte version "." with
  | major :: minor :: _ => major ++ "." ++ minor
  | _ => version
  end.

(** ** Version detection over a file system

    [ReadFile] answers [None] where [os.ReadFile] returns an error; [Join] is
    [filepath.Join]; [TrimSpace] is [strings.TrimSpace]. *)
Section Detection.
Context (ReadFile : string -> option string)
        (Join : string -> string -> string)
        (TrimSpace : string -> string).

Definition parseGoVersionFromFile (path : string) : string :=
  match ReadFile path with
  | None => ""
  | Some data =>
      match findGoDirective true data with
      | Some v => v
      | None => ""
      end
  end.

Definition readGoVersionFile (projectPath : string) : string :=
  match ReadFile (Join projectPath ".go-version") with
  | None => ""
  | Some data => normalizeGoVersion (TrimSpace data)
  end.

Definition DetectGoVersion (projectPath : string) : string :=
  let v := parseGoVersionFromFile (Join projectPath "go.mod") in
  if negb (v =? "") then normalizeGoVersion v
  else
    let v := readGoVersionFile projectPath in
    if negb (v =? "") then v
    else
      let v := parseGoVersionFromFile (Join projectPath "go.work") in
      if negb (v =? "") then normalizeGoVersion v
      else defaultGoVersion.

End Detection.

(** ** Call-target resolution *)

(** [CallSiteInternal], as the tests build it: the called name and the
    qualifier before the dot (empty for a bare call). *)
Record CallSiteInternal := mkCallSiteInternal {
  FunctionName : string;
  ObjectName : string
}.

(** The call site stored in the graph (data model of the spec). *)
Record CallSite := mkCallSite {
  TargetName : string;
  TargetFQN : string;
  Resolved : bool;
  IsStdlib : bool
}.

Definition goBuiltins : list string :=
  [ "append"; "cap"; "clear"; "close"; "complex"; "copy"; "delete"; "imag";
    "len"; "make"; "max"; "min"; "new"; "panic"; "print"; "println";
    "real"; "recover" ].

(** Modelled from the spec: [resolveGoCallTarget] is not among the sources,
    only its tests are.  The spec's resolution patterns, tried in order:
    (1) a selector call whose qualifier is a package alias of the import map
    targets [<importPath>.<name>], stdlib exactly when the Stdlib Loader
    validates the import path; (2) a selector call whose qualifier is a
    variable of known type targets [<typeFQN>.<name>], never stdlib; (3) a
    bare call targets [builtin.<name>] for a builtin of the language and
    [<currentPackage>.<name>] otherwise; (4) anything else is unresolved, with
    an empty target.  [varType] gives the type of the caller's variables and
    [currentPackage] the caller's package; the result is
    [(targetFQN, resolved, isStdlib)]. *)
Definition resolveGoCallTarget (cs : CallSiteInternal) (importMap : GoImportMap)
    (reg : GoModuleRegistry) (varType : string -> option string)
    (currentPackage : string) : string * bool * bool :=
  if negb (ObjectName cs =? "") then
    match Imports importMap !! ObjectName cs with
    | Some importPath =>
        let isStdlib :=
          match StdlibLoader reg with
          | Some loader => ValidateStdlibImport loader importPath
          | None => false
          end in
        (importPath ++ "." ++ FunctionName cs, true, isStdlib)
    | None =>
        match varType (ObjectName cs) with
        | Some typeFQN => (typeFQN ++ "." ++ FunctionName cs, true, false)
        | None => ("", false, false)
        end
    end
  else if existsb (String.eqb (FunctionName cs)) goBuiltins
       then ("builtin." ++ FunctionName cs, true, false)
       else (currentPackage ++ "." ++ FunctionName cs, true, false).

(** Modelled from the spec: the builder's emission of a call site is not among
    the sources; the emitted record carries the resolver's verdicts. *)
Definition emitCallSite (cs : CallSiteInternal) (importMap : GoImportMap)
    (reg : GoModuleRegistry) (varType : string -> option string)
    (currentPackage : string) : CallSite :=
  let '(targetFQN, resolved, isStdlib) :=
    resolveGoCallTarget cs importMap reg varType currentPackage in
  mkCallSite (FunctionName cs) targetFQN resolved isStdlib.

End Builder.

(* ===================================================================== *)
(** * Specification-level definitions                                     *)
(* ===================================================================== *)

Module Spec.
Import GoStrings Core Resolution Extraction Builder.

(** No Stdlib Loader is available to the resolver: the registry is nil or its
    loader is. *)
Definition noLoader (r : GoImportResolver) : Prop :=
  match registry r with
  | Some reg => StdlibLoader reg = None
  | None => True
  end.

(** The Stdlib Loader validates the path: there is a loader and it says so. *)
Definition loaderValidates (r : GoImportResolver) (p : string) : bool :=
  match registry r with
  | Some reg =>
      match StdlibLoader reg with
      | Some loader => ValidateStdlibImport loader p
      | None => false
      end
  | None => false
  end.

(** The module has a path and the import path begins with its bytes: the test
    [ClassifyImport] makes. *)
Definition startsWithModulePath (r : GoImportResolver) (p : string) : bool :=
  match registry r with
  | Some reg => negb (ModulePath reg =? "") && HasPrefix p (ModulePath reg)
  | None => false
  end.

(** The import path is a prefix-subpath of the module's own path: the module
    path itself or a path under it. *)
Definition underModulePath (r : GoImportResolver) (p : string) : bool :=
  match registry r with
  | Some reg =>
      negb (ModulePath reg =? "")
      && ((p =? ModulePath reg) || HasPrefix p (ModulePath reg ++ "/"))
  | None => false
  end.

(** The classification rule in the words of the spec: stdlib when the Stdlib
    Loader validates the path, else local when the path is relative or under
    the module's own path, else third-party. *)
Definition ClassifyImport_spec (r : GoImportResolver) (p : string) : ImportType :=
  if loaderValidates r p then ImportStdlib
  else if HasPrefix p "." || underModulePath r p then ImportLocal
  else ImportThirdParty.

(** The verdicts of the classifier, as propositions. *)
Definition stdlibVerdict (r : GoImportResolver) (p : string) : Prop :=
  (exists reg loader, registry r = Some reg /\ StdlibLoader reg = Some loader
                      /\ ValidateStdlibImport loader p = true)
  \/ (noLoader r /\ ~ In "."%char (list_ascii_of_string p)
      /\ ~ (exists rest, p = "internal/" ++ rest)).

Definition localPath (r : GoImportResolver) (p : string) : Prop :=
  (exists rest, p = "." ++ rest)
  \/ (exists reg, registry r = Some reg /\ ModulePath reg <> ""
                  /\ (p = ModulePath reg
                      \/ exists rest, p = ModulePath reg ++ "/" ++ rest)).

(** The path is not relative, begins with the bytes of the module path and
    goes on inside a path segment, as [github.com/myapp2/x] does for the module
    [github.com/myapp]. *)
Definition insideSegment (r : GoImportResolver) (p : string) : Prop :=
  ~ (exists rest, p = "." ++ rest)
  /\ exists reg c rest, registry r = Some reg /\ ModulePath reg <> ""
                        /\ p = ModulePath reg ++ String c rest /\ c <> "/"%char.

(** The primary return in the words of the spec: the first return whose raw
    type is neither empty nor ["error"]. *)
Definition primaryReturn (returns : list GoReturnValue) : option GoReturnValue :=
  List.find (fun r => negb (RetType r =? "") && negb (RetType r =? "error")) returns.

(** [GetReturnType] in the words of the spec: the local table first; on a miss
    with a loader attached, split at the last ['.'], validate the prefix, and
    normalize the primary return. *)
Definition GetReturnType_spec (e : GoTypeInferenceEngine) (functionFQN : string)
  : option TypeInfo :=
  match ReturnTypes e !! functionFQN with
  | Some typeInfo => Some typeInfo
  | None =>
      match Registry e ≫= StdlibLoader with
      | None => None
      | Some loader =>
          let dotIdx := LastIndex functionFQN "." in
          if (dotIdx <? 0)%Z then None
          else
            let importPath := take (Z.to_nat dotIdx) functionFQN in
            let funcName := drop (Z.to_nat (dotIdx + 1)) functionFQN in
            if ValidateStdlibImport loader importPath then
              match GetFunction loader importPath funcName with
              | Some fn =>
                  match primaryReturn (Returns fn) with
                  | Some ret =>
                      Some (mkTypeInfo (stdlibNormalizeType (RetType ret) importPath)
                                       1 "stdlib")
                  | None => None
                  end
              | None => None
              end
            else None
      end
  end.

(** A return the loop of [GetReturnType] stops at: its raw type is not empty,
    is not ["error"], and does not normalize to the empty string. *)
Definition usableReturn (importPath : string) (r : GoReturnValue) : Prop :=
  RetType r <> "" /\ RetType r <> "error"
  /\ stdlibNormalizeType (RetType r) importPath <> "".

(** Major.minor form: two dot-separated fields, each a non-empty run of
    digits. *)
Definition allDigits (s : string) : bool := forallb isDigit (list_ascii_of_string s).

Definition isMajorMinor (v : string) : bool :=
  match SplitByte v "." with
  | [major; minor] =>
      negb (major =? "") && allDigits major && negb (minor =? "") && allDigits minor
  | _ => false
  end.

(** [strings.Join(fields, ".")] *)
Fixpoint joinDots (fields : list string) : string :=
  match fields with
  | [] => ""
  | f :: rest =>
      match rest with
      | [] => f
      | _ :: _ => f ++ "." ++ joinDots rest
      end
  end.

(** The first non-empty string of a list, [dflt] when there is none. *)
Fixpoint firstNonEmpty (candidates : list string) (dflt : string) : string :=
  match candidates with
  | [] => dflt
  | c :: rest => if c =? "" then firstNonEmpty rest dflt else c
  end.

(** The bindings of [varName] in the scope of [functionFQN], as
    [engine.GetScope(functionFQN).GetAllBindings(varName)] gives them; no
    bindings where there is no scope. *)
Definition bindingsOf (e : GoTypeInferenceEngine) (functionFQN varName : string)
  : list GoVariableBinding :=
  match GetScope e functionFQN with
  | Some scope => GetAllBindings scope varName
  | None => []
  end.

(** [engine.GetScope(functionFQN).GetVariable(varName)]. *)
Definition latestOf (e : GoTypeInferenceEngine) (functionFQN varName : string)
  : option GoVariableBinding :=
  match GetScope e functionFQN with
  | Some scope => GetVariable scope varName
  | None => None
  end.

Definition lineOf (b : GoVariableBinding) : nat := Line (Loc b).





End Spec.

(* ===================================================================== *)
(** * Concrete programs and hosts                                         *)
(* ===================================================================== *)

Module Scenarios.
Import GoStrings Core Resolution Extraction Builder Spec.

(** [filepath.Dir] on a cleaned slash-separated path. *)
Definition posixDir (path : string) : string :=
  let i := LastIndex path "/" in
  if (i <? 0)%Z then "." else if (i =? 0)%Z then "/" else take (Z.to_nat i) path.

(** A host that parses each listed source text to its tree, with the parse
    helpers of package [golang] as modelled above.  The programs below hold
    no struct literal, so [ParseGoTypeString] is never reached. *)
Definition scenarioHost (files : list (string * Node)) : Host :=
  mkHost ParseShortVarDeclaration_model ParseAssignment_model
         (fun _ _ _ => None)
         posixDir
         (fun path => HasPrefix path "/")
         (fun path => Some ("/work/" ++ path))
         (fun src =>
            match List.find (fun f => fst f =? src) files with
            | Some f => inl (snd f)
            | None => inr "no tree"
            end).

(** The same host with a [ParseAssignment] that reports every assigned name,
    the blank identifier included. *)
Definition reportAllHost : Host :=
  let h := scenarioHost [] in
  mkHost ParseShortVarDeclaration_model assignedNames (ParseGoTypeString h)
         (Dir h) (IsAbs h) (Abs h) (ParseCtx h).

(** Tree builders: a leaf, a child under a field, a plain named child, an
    anonymous token. *)
Definition leaf (ntype text : string) (row : nat) : Node := MkNode ntype text row [].
Definition fld (name : string) (n : Node) : Kid := MkKid (Some name) true n.
Definition sub (n : Node) : Kid := MkKid None true n.
Definition tok (text : string) (row : nat) : Kid := MkKid None false (leaf text text row).

Definition ident (name : string) (row : nat) : Node := leaf "identifier" name row.

(** [pkg.Name(arg)] *)
Definition selectorCall (pkg name arg : string) (row : nat) : Node :=
  MkNode "call_expression" (pkg ++ "." ++ name ++ "(" ++ arg ++ ")") row
    [ fld "function"
        (MkNode "selector_expression" (pkg ++ "." ++ name) row
           [ fld "operand" (ident pkg row); tok "." row;
             fld "field" (leaf "field_identifier" name row) ]);
      fld "arguments"
        (MkNode "argument_list" ("(" ++ arg ++ ")") row
           [ tok "(" row; sub (ident arg row); tok ")" row ]) ].

(** [Name(arg)], or [Name()] for an empty [arg] *)
Definition plainCall (name arg : string) (row : nat) : Node :=
  MkNode "call_expression" (name ++ "(" ++ arg ++ ")") row
    [ fld "function" (ident name row);
      fld "arguments"
        (MkNode "argument_list" ("(" ++ arg ++ ")") row
           (if arg =? "" then [ tok "(" row; tok ")" row ]
            else [ tok "(" row; sub (leaf "int_literal" arg row); tok ")" row ])) ].

(** [lhs1, lhs2, ... op rhs] for [op] one of [:=] and [=]. *)
Definition assignNode (ntype op : string) (lhs : list string) (rhs : Node) (row : nat) : Node :=
  MkNode ntype "" row
    [ fld "left" (MkNode "expression_list" "" row (map (fun x => sub (ident x row)) lhs));
      tok op row;
      fld "right" (MkNode "expression_list" (Content rhs) row [ sub rhs ]) ].

Definition shortVar := assignNode "short_var_declaration" ":=".
Definition assign := assignNode "assignment_statement" "=".

(** [func name() { stmts }] *)
Definition funcDecl (name : string) (row : nat) (stmts : list Node) : Node :=
  MkNode "function_declaration" "" row
    [ tok "func" row; fld "name" (ident name row);
      fld "parameters" (MkNode "parameter_list" "()" row [ tok "(" row; tok ")" row ]);
      fld "body" (MkNode "block" "" row (tok "{" row :: map sub stmts)) ].

(** [package main], then the declarations. *)
Definition sourceFile (decls : list Node) : Node :=
  MkNode "source_file" "" 0
    (sub (MkNode "package_clause" "package main" 0
            [ tok "package" 0; sub (leaf "package_identifier" "main" 0) ])
     :: map sub decls).

(** A loader whose manifest knows [net/http] and its [Get], returning
    [[*Response, error]]. *)
Definition httpLoader : GoStdlibLoader :=
  mkLoader (fun importPath => importPath =? "net/http")
           (fun importPath funcName =>
              if (importPath =? "net/http") && (funcName =? "Get")
              then Some (mkStdlibFunction "Get"
                           "func Get(url string) (resp *Response, err error)"
                           [ mkReturn "*Response"; mkReturn "error" ])
              else None).

(** A loader whose manifest lists, for [bytes.Fields], a first return type
    that is only a slice qualifier. *)
Definition oddLoader : GoStdlibLoader :=
  mkLoader (fun importPath => importPath =? "bytes")
           (fun importPath funcName =>
              if (importPath =? "bytes") && (funcName =? "Fields")
              then Some (mkStdlibFunction "Fields" "func Fields(s []byte) [][]byte"
                           [ mkReturn "[]"; mkReturn "string" ])
              else None).

Definition oddEngine : GoTypeInferenceEngine :=
  NewGoTypeInferenceEngine (Some (mkRegistry "main" "1.21" ∅ ∅ (Some oddLoader))).

(** A project directory holding only a version pin file with the given text. *)
Definition pinnedProject (pin : string) : string -> option string :=
  fun path => if path =? "/proj/.go-version" then Some pin else None.

Definition slashJoin (dir name : string) : string := dir ++ "/" ++ name.

(** A project whose [go.mod] asks for go 1.24 and whose pin file says 1.22.0. *)
Definition modAndPinProject : string -> option string :=
  fun path =>
    if path =? "/proj/go.mod"
    then Some ("module example.com/app" ++ String "010" (String "010" "go 1.24.1")
               ++ String "010" "")
    else if path =? "/proj/.go-version" then Some ("1.22.0" ++ String "010" "")
    else None.

(** A resolver for the module [github.com/myapp], without loader. *)
Definition myappResolver : GoImportResolver :=
  NewGoImportResolver (Some (mkRegistry "github.com/myapp" "1.21" ∅ ∅ None)).

(** The project at [/proj], module and package [main]. *)
Definition projRegistry (loader : option GoStdlibLoader) : GoModuleRegistry :=
  mkRegistry "main" "1.21" {[ "/proj" := "main" ]} {[ "main" := "/proj" ]} loader.

(** S1: [package main; import "net/http"; func main() { resp, _ := http.Get(url) }],
    the assignment on line 6. *)
Definition s1Tree : Node :=
  sourceFile
    [ MkNode "import_declaration" "" 2
        [ tok "import" 2;
          sub (MkNode "import_spec" "" 2
                 [ fld "path" (leaf "interpreted_string_literal" "net/http" 2) ]) ];
      funcDecl "main" 4 [ shortVar ["resp"; "_"] (selectorCall "http" "Get" "url" 5) 5 ] ].

Definition s1Imports : option GoImportMap :=
  Some (mkImportMap "main" {[ "http" := "net/http" ]}).

Definition s1Engine : GoTypeInferenceEngine :=
  fst (ExtractGoVariableAssignments (scenarioHost [("s1", s1Tree)]) "/proj/main.go" "s1"
         (NewGoTypeInferenceEngine (Some (projRegistry (Some httpLoader))))
         (projRegistry (Some httpLoader)) s1Imports).

(** S1 again, with a type engine that was not given the registry: only the
    registry passed to Pass 2b carries the loader. *)
Definition s1DetachedEngine : GoTypeInferenceEngine :=
  fst (ExtractGoVariableAssignments (scenarioHost [("s1", s1Tree)]) "/proj/main.go" "s1"
         (NewGoTypeInferenceEngine None)
         (projRegistry (Some httpLoader)) s1Imports).



(** S4: [u := GetUser(1)] on line 10 and [u = NewUser()] on line 20, both
    functions registered by Pass 2a as returning [pkg.User]. *)
Definition s4Tree : Node :=
  sourceFile
    [ funcDecl "main" 8
        [ shortVar ["u"] (plainCall "GetUser" "1" 9) 9;
          assign ["u"] (plainCall "NewUser" "" 19) 19 ] ].

Definition userType : TypeInfo := mkTypeInfo "pkg.User" (95 # 100) "declaration".

Definition s4Start : GoTypeInferenceEngine :=
  AddReturnType
    (AddReturnType (NewGoTypeInferenceEngine (Some (projRegistry None)))
                   "main.GetUser" userType)
    "main.NewUser" userType.

Definition s4Host : Host := scenarioHost [("s4", s4Tree)].

Definition s4Engine : GoTypeInferenceEngine :=
  fst (ExtractGoVariableAssignments s4Host "/proj/main.go" "s4" s4Start
         (projRegistry None) None).

(** Two files of package [main], each with its own [func init()]: [a.go]
    assigns [x := 1] on line 30, [b.go] assigns [x := 2] on line 5. *)
Definition initATree : Node :=
  sourceFile [ funcDecl "init" 28 [ shortVar ["x"] (leaf "int_literal" "1" 29) 29 ] ].

Definition initBTree : Node :=
  sourceFile [ funcDecl "init" 3 [ shortVar ["x"] (leaf "int_literal" "2" 4) 4 ] ].

Definition initHost : Host := scenarioHost [("a", initATree); ("b", initBTree)].

Definition initEngine : GoTypeInferenceEngine :=
  let e0 := NewGoTypeInferenceEngine (Some (projRegistry None)) in
  let e1 := fst (ExtractGoVariableAssignments initHost "/proj/a.go" "a" e0
                   (projRegistry None) None) in
  fst (ExtractGoVariableAssignments initHost "/proj/b.go" "b" e1 (projRegistry None) None).

End Scenarios.

(* ===================================================================== *)
(** * Package [resolution]: the rest of the engine's interface and the
      import side ([ExtractGoImports], [ResolveImports])                   *)
(* ===================================================================== *)

Module GoImports.
Import GoStrings Core Resolution Extraction.

(** ** [go_types.go], the membership tests *)

Definition HasScope (e : GoTypeInferenceEngine) (functionFQN : string) : bool :=
  match Scopes e !! functionFQN with
  | Some _ => true
  | None => false
  end.

Definition HasReturnType (e : GoTypeInferenceEngine) (functionFQN : string) : bool :=
  match ReturnTypes e !! functionFQN with
  | Some _ => true
  | None => false
  end.

(** ** Strings *)

(** The double-quote byte that surrounds an import path in the source text. *)
Definition quoteByte : ascii := ascii_of_nat 34.

(** [strings.Trim(s, cutset)] for a cutset of one byte: the leading and the
    trailing occurrences of the byte are removed. *)
Fixpoint TrimLeftByte (s : string) (c : ascii) : string :=
  match s with
  | String x s' => if Ascii.eqb x c then TrimLeftByte s' c else s
  | EmptyString => EmptyString
  end.

Fixpoint TrimRightByte (s : string) (c : ascii) : string :=
  match s with
  | EmptyString => EmptyString
  | String x s' =>
      match TrimRightByte s' c with
      | EmptyString => if Ascii.eqb x c then EmptyString else String x EmptyString
      | t => String x t
      end
  end.

Definition TrimByte (s : string) (c : ascii) : string :=
  TrimRightByte (TrimLeftByte s c) c.

(** ** Imports of a file *)

(** Modelled from the spec: [core.NewGoImportMap] and [GoImportMap.AddImport]
    are not among the sources.  The import map is "a mapping from each bound
    local alias to its full import path", empty when created; the tests read
    [Imports[alias]] after [AddImport(alias, path)].  The file path the Go
    constructor also stores is not read by any code here. *)
Definition NewGoImportMap (filePath : string) : GoImportMap := mkImportMap "" ∅.

Definition AddImport (importMap : GoImportMap) (localName importPath : string) : GoImportMap :=
  mkImportMap (PackageName importMap) (<[localName := importPath]> (Imports importMap)).

Definition extractLocalName (importPath : string) : string :=
  if importPath =? "" then ""
  else
    let lastSlash := LastIndex importPath "/" in
    if (lastSlash =? -1)%Z then importPath
    else drop (Z.to_nat (lastSlash + 1)) importPath.

Definition processImportSpec (node : Node) (importMap : GoImportMap) : GoImportMap :=
  let importPath :=
    match ChildByFieldName node "path" with
    | Some pathNode => TrimByte (Content pathNode) quoteByte
    | None => ""
    end in
  let localName :=
    match ChildByFieldName node "name" with
    | Some nameNode => Content nameNode
    | None => extractLocalName importPath
    end in
  if negb (importPath =? "") then AddImport importMap localName importPath
  else importMap.

Definition processGoImportDeclaration (node : Node) (importMap : GoImportMap) : GoImportMap :=
  forNamed
    (fun child importMap =>
       if NodeType child =? "import_spec" then processImportSpec child importMap
       else if NodeType child =? "import_spec_list" then
         forNamed
           (fun spec importMap =>
              if NodeType spec =? "import_spec" then processImportSpec spec importMap
              else importMap)
           (Kids child) importMap
       else importMap)
    (Kids node) importMap.

(** The loop [for i := 0; i < ChildCount(); i++ { step(Child(i)) }], over all
    children, anonymous ones included. *)
Definition forKids {S : Type} (step : Node -> S -> S) : list Kid -> S -> S :=
  fix go (ks : list Kid) (st : S) : S :=
    match ks with
    | [] => st
    | MkKid _ _ c :: ks' => go ks' (step c st)
    end.

Fixpoint traverseForGoImports (node : Node) (importMap : GoImportMap) {struct node}
  : GoImportMap :=
  match node with
  | MkNode nodeType _ _ kids =>
      if nodeType =? "import_declaration"
      then processGoImportDeclaration node importMap
      else forKids (fun child importMap => traverseForGoImports child importMap)
                   kids importMap
  end.

(** The first named child of the given type. *)
Definition firstNamedOfType (nodeType : string) : list Kid -> option Node :=
  fix go (ks : list Kid) : option Node :=
    match ks with
    | [] => None
    | MkKid _ nm c :: ks' =>
        if nm && (NodeType c =? nodeType) then Some c else go ks'
    end.

(** Step 1 of [ExtractGoImports]: the identifier of the first package clause
    under the root; both loops stop at their first hit. *)
Definition extractPackageName (rootNode : Node) (importMap : GoImportMap) : GoImportMap :=
  match firstNamedOfType "package_clause" (Kids rootNode) with
  | None => importMap
  | Some clause =>
      match firstNamedOfType "package_identifier" (Kids clause) with
      | None => importMap
      | Some pkgNode => mkImportMap (Content pkgNode) (Imports importMap)
      end
  end.

(** [ExtractGoImports]; [parse] is the tree-sitter parser, answering [inr] where
    [ParseCtx] returns an error. *)
Definition ExtractGoImports (parse : string -> Node + string)
    (filePath sourceCode : string) (registry : GoModuleRegistry)
  : GoImportMap + string :=
  match parse sourceCode with
  | inr err => inr ("failed to parse Go file: " ++ err)
  | inl rootNode =>
      let importMap := NewGoImportMap filePath in
      let importMap := extractPackageName rootNode importMap in
      inl (traverseForGoImports rootNode importMap)
  end.

(** ** Classifying a list of imports *)

Definition ResolveImports (r : GoImportResolver) (imports : list string)
  : gmap string ImportType :=
  fold_left (fun result importPath => <[importPath := ClassifyImport r importPath]> result)
            imports ∅.

End GoImports.

(* ===================================================================== *)
(** * Package [builder]: loading the stdlib manifest                      *)
(* ===================================================================== *)

Module LoaderInit.
Import GoStrings Core Resolution Builder.

(** [LoadManifest baseURL version] stands for
    [registry.NewGoStdlibRegistryRemote(baseURL, version)] followed by its
    [LoadManifest]: the loaded registry, or [None] where [LoadManifest]
    returns an error.  The file-system parameters are those of
    [DetectGoVersion]. *)
Section Init.
Context (ReadFile : string -> option string)
        (Join : string -> string -> string)
        (TrimSpace : string -> string)
        (LoadManifest : string -> string -> option GoStdlibLoader).

(** The local [version] of [initGoStdlibLoaderWithBase]. *)
Definition manifestVersion (reg : GoModuleRegistry) (projectPath : string) : string :=
  let version := normalizeGoVersion (GoVersion reg) in
  if version =? "" then DetectGoVersion ReadFile Join TrimSpace projectPath
  else version.

(** [initGoStdlibLoaderWithBase]: the registry after the call (the logger's
    output is not kept). *)
Definition initGoStdlibLoaderWithBase (reg : GoModuleRegistry)
    (projectPath baseURL : string) : GoModuleRegistry :=
  let version := manifestVersion reg projectPath in
  match LoadManifest baseURL version with
  | None => reg
  | Some remote =>
      mkRegistry (ModulePath reg) (GoVersion reg) (DirToImport reg) (ImportToDir reg)
                 (Some remote)
  end.

End Init.

End LoaderInit.

(* ===================================================================== *)
(** * Further specification-level definitions and programs                *)
(* ===================================================================== *)

Module SpecMore.
Import GoStrings Core Resolution Extraction Builder Spec Scenarios GoImports.

(** No node of the tree reached by the traversal declares a function or a
    method. *)
Fixpoint noFunctionDecl (n : Node) {struct n} : bool :=
  match n with
  | MkNode nodeType _ _ kids =>
      negb (nodeType =? "function_declaration")
      && negb (nodeType =? "method_declaration")
      && forNamed (fun c ok => ok && noFunctionDecl c) kids true
  end.

(** Every scope of the engine is filed under its own FQN. *)
Definition keyedByOwnFQN (e : GoTypeInferenceEngine) : Prop :=
  forall key scope, Scopes e !! key = Some scope -> FunctionFQN scope = key.

(** [func (r recvType) name() { }]: a method declaration with the given
    receiver type text. *)
Definition methodDecl (recvType name : string) (row : nat) : Node :=
  MkNode "method_declaration" "" row
    [ tok "func" row;
      fld "receiver"
        (MkNode "parameter_list" ("(r " ++ recvType ++ ")") row
           [ tok "(" row;
             sub (MkNode "parameter_declaration" ("r " ++ recvType) row
                    [ fld "name" (ident "r" row);
                      fld "type" (leaf "type_identifier" recvType row) ]);
             tok ")" row ]);
      fld "name" (leaf "field_identifier" name row);
      fld "parameters" (MkNode "parameter_list" "()" row [ tok "(" row; tok ")" row ]);
      fld "body" (MkNode "block" "" row [ tok "{" row; tok "}" row ]) ].

(** [var f = func() { x := 1 }]: a short variable declaration inside a
    function literal at package level, with no function or method declaration
    around it. *)
Definition packageLevelTree : Node :=
  sourceFile
    [ MkNode "var_declaration" "" 2
        [ tok "var" 2;
          sub (MkNode "var_spec" "" 2
                 [ fld "name" (ident "f" 2);
                   fld "value"
                     (MkNode "expression_list" "func() { x := 1 }" 2
                        [ sub (MkNode "func_literal" "func() { x := 1 }" 2
                                 [ tok "func" 2;
                                   fld "parameters"
                                     (MkNode "parameter_list" "()" 2
                                        [ tok "(" 2; tok ")" 2 ]);
                                   fld "body"
                                     (MkNode "block" "{ x := 1 }" 2
                                        [ tok "{" 2;
                                          sub (shortVar ["x"]
                                                 (leaf "int_literal" "1" 2) 2);
                                          tok "}" 2 ]) ]) ]) ]) ] ].

(** [a, b := Pair()] *)
Definition pairNode : Node := shortVar ["a"; "b"] (plainCall "Pair" "" 2) 2.

(** [import alias "path"], or [import "path"] for an empty alias; the path
    node spans the quotes. *)
Definition importSpec (alias path : string) (row : nat) : Node :=
  MkNode "import_spec" "" row
    ((if alias =? "" then [] else [ fld "name" (leaf "package_identifier" alias row) ])
     ++ [ fld "path"
            (leaf "interpreted_string_literal"
                  (String quoteByte (path ++ String quoteByte "")) row) ])%list.

(** Every byte is in the class [\s] of the directive pattern. *)
Definition allRegexSpace (s : string) : bool :=
  forallb isRegexSpace (list_ascii_of_string s).

Definition headIsDigit (s : string) : bool :=
  match s with
  | String c _ => isDigit c
  | EmptyString => false
  end.

(** The text is made of whole lines (it is empty or ends in a newline when
    read from a line start) none of which begins with the byte [c]. *)
Fixpoint linesAvoid (c : ascii) (lineStart : bool) (s : string) : bool :=
  match s with
  | EmptyString => lineStart
  | String x s' =>
      negb (lineStart && Ascii.eqb x c) && linesAvoid c (Ascii.eqb x "010") s'
  end.

End SpecMore.

(* ===================================================================== *)
(** * Properties                                                          *)
(* ===================================================================== *)

Import GoStrings Core Resolution Extraction Builder Spec Scenarios.

(** ** Strings *)

Lemma HasPrefix_cons c s d p :
  HasPrefix (String c s) (String d p) = (Ascii.eqb d c && HasPrefix s p).
Proof.
  unfold HasPrefix; simpl.
  destruct (ascii_dec d c) as [->|Hne].
  - now rewrite Ascii.eqb_refl.
  - destruct (Ascii.eqb_spec d c); [contradiction | reflexivity].
Qed.

Lemma HasPrefix_nil_r s : HasPrefix s "" = true.
Proof. now destruct s. Qed.

Lemma HasPrefix_spec s p : HasPrefix s p = true <-> exists r, s = p ++ r.
Proof.
  revert s; induction p as [|d p IH]; intros s.
  - rewrite HasPrefix_nil_r. split; [exists s; reflexivity | reflexivity].
  - destruct s as [|c s].
    + split; [discriminate | intros [r Hr]; discriminate].
    + rewrite HasPrefix_cons, andb_true_iff, IH. split.
      * intros [Hc [r ->]]. apply Ascii.eqb_eq in Hc; subst. now exists r.
      * intros [r Hr]. simpl in Hr. injection Hr as -> ->.
        split; [apply Ascii.eqb_refl | now exists r].
Qed.

Lemma length_drop n s : String.length (drop n s) = (String.length s - n)%nat.
Proof. revert s; induction n; intros [|c s]; simpl; auto with arith. Qed.

Lemma length_append p r :
  String.length (p ++ r) = (String.length p + String.length r)%nat.
Proof. induction p; simpl; auto. Qed.

Lemma append_assoc a b c : (a ++ b) ++ c = a ++ b ++ c.
Proof.
  induction a as [|x a IH]; [reflexivity|].
  change (String x ((a ++ b) ++ c) = String x (a ++ b ++ c)). now f_equal.
Qed.

Lemma append_nil_r s : s ++ "" = s.
Proof.
  induction s as [|c s IH]; [reflexivity|].
  change (String c (s ++ "") = String c s). now f_equal.
Qed.

Lemma drop_app_length p r : drop (String.length p) (p ++ r) = r.
Proof. induction p; simpl; auto. Qed.

Lemma take_app_length p r : take (String.length p) (p ++ r) = p.
Proof. induction p; simpl; [now destruct r | now f_equal]. Qed.

Lemma TrimPrefix_app p r : TrimPrefix (p ++ r) p = r.
Proof.
  unfold TrimPrefix.
  assert (H : HasPrefix (p ++ r) p = true) by (apply HasPrefix_spec; now exists r).
  rewrite H. apply drop_app_length.
Qed.

Lemma TrimPrefix_none s p : HasPrefix s p = false -> TrimPrefix s p = s.
Proof. unfold TrimPrefix; now intros ->. Qed.

Lemma TrimPrefix_length s p :
  (String.length (TrimPrefix s p) <= String.length s)%nat.
Proof. unfold TrimPrefix; destruct (HasPrefix s p); [rewrite length_drop|]; lia. Qed.

Lemma TrimPrefix_shorter s p :
  HasPrefix s p = true -> p <> "" ->
  (String.length (TrimPrefix s p) < String.length s)%nat.
Proof.
  intros H Hp. apply HasPrefix_spec in H as [r ->]. rewrite TrimPrefix_app.
  rewrite length_append. destruct p; [contradiction | simpl; lia].
Qed.

(** [strings.Contains(s, ".")] is the presence of the byte [.] in [s]. *)
Lemma Contains_dot_cons c s :
  Contains (String c s) "." = (Ascii.eqb "." c || Contains s ".").
Proof.
  cbn [Contains]. rewrite HasPrefix_cons, HasPrefix_nil_r, andb_true_r.
  now destruct (Ascii.eqb "." c).
Qed.

Lemma Contains_dot_In s :
  Contains s "." = true <-> In "."%char (list_ascii_of_string s).
Proof.
  induction s as [|c s IH].
  - simpl. split; [discriminate | contradiction].
  - rewrite Contains_dot_cons, orb_true_iff, IH, Ascii.eqb_eq. simpl.
    split; intros [H|H]; auto.
Qed.

Lemma Contains_dot_app a b :
  Contains (a ++ b) "." = (Contains a "." || Contains b ".").
Proof.
  induction a as [|c a IH].
  - reflexivity.
  - change (String c a ++ b) with (String c (a ++ b)).
    now rewrite !Contains_dot_cons, IH, orb_assoc.
Qed.

Lemma Contains_dot_TrimPrefix s p :
  Contains p "." = false -> Contains (TrimPrefix s p) "." = Contains s ".".
Proof.
  intros Hp. unfold TrimPrefix. destruct (HasPrefix s p) eqn:H; [|reflexivity].
  apply HasPrefix_spec in H as [r ->].
  now rewrite drop_app_length, Contains_dot_app, Hp.
Qed.

(** ** The normalizers *)

Lemma builtin_no_dot t : isBuiltinTypeName t = true -> Contains t "." = false.
Proof.
  unfold isBuiltinTypeName, builtinTypeNames. cbn [existsb].
  rewrite !orb_true_iff.
  intros H; repeat (destruct H as [H|H]); try discriminate;
    apply String.eqb_eq in H; subst; reflexivity.
Qed.

Lemma normalizers_agree raw ip :
  normalizeStdlibReturnType raw ip = stdlibNormalizeType raw ip.
Proof. reflexivity. Qed.

(** A normalized type is empty or qualified. *)
Lemma normalize_output raw ip :
  stdlibNormalizeType raw ip = "" \/ Contains (stdlibNormalizeType raw ip) "." = true.
Proof.
  unfold stdlibNormalizeType.
  set (t := TrimPrefix (TrimPrefix raw "*") "[]").
  destruct (String.eqb t "") eqn:E0; [now left|].
  destruct (isBuiltinTypeName t) eqn:Eb; [right; now rewrite Contains_dot_app|].
  destruct (Contains t ".") eqn:Ec; [now right|].
  right. rewrite Contains_dot_app.
  change ("." ++ t) with (String "." t). rewrite Contains_dot_cons.
  apply orb_true_r.
Qed.

(** On a qualified string the normalizer only strips the two qualifiers. *)
Lemma normalize_qualified s ip :
  Contains s "." = true ->
  stdlibNormalizeType s ip = TrimPrefix (TrimPrefix s "*") "[]".
Proof.
  intros Hs. unfold stdlibNormalizeType.
  set (t := TrimPrefix (TrimPrefix s "*") "[]").
  assert (Ht : Contains t "." = true).
  { unfold t. now rewrite !Contains_dot_TrimPrefix. }
  destruct (String.eqb_spec t "") as [E|_]; [rewrite E in Ht; discriminate|].
  destruct (isBuiltinTypeName t) eqn:Eb.
  - apply builtin_no_dot in Eb. congruence.
  - now rewrite Ht.
Qed.

Lemma strip_qualifiers_fixed s :
  TrimPrefix (TrimPrefix s "*") "[]" = s <->
  HasPrefix s "*" = false /\ HasPrefix s "[]" = false.
Proof.
  split.
  - intros H.
    destruct (HasPrefix s "*") eqn:H1.
    + pose proof (TrimPrefix_shorter s "*" H1 ltac:(discriminate)).
      pose proof (TrimPrefix_length (TrimPrefix s "*") "[]").
      rewrite H in *. lia.
    + rewrite (TrimPrefix_none _ _ H1) in H.
      destruct (HasPrefix s "[]") eqn:H2; [|auto].
      pose proof (TrimPrefix_shorter s "[]" H2 ltac:(discriminate)).
      rewrite H in *. lia.
  - intros [H1 H2]. now rewrite (TrimPrefix_none _ _ H1), (TrimPrefix_none _ _ H2).
Qed.

(** C8, as amended: with either normalizer, normalizing a normalized type
    gives the same string exactly when that normalized type begins with
    neither ["*"] nor ["[]"]; the normalizer strips one ["*"] and then one
    ["[]"], so a type that keeps a qualifier after the first pass loses it in
    the second. *)
Theorem normalize_idempotent_iff (raw ip : string) :
  (stdlibNormalizeType (stdlibNormalizeType raw ip) ip = stdlibNormalizeType raw ip
   <-> HasPrefix (stdlibNormalizeType raw ip) "*" = false
       /\ HasPrefix (stdlibNormalizeType raw ip) "[]" = false)
  /\ (normalizeStdlibReturnType (normalizeStdlibReturnType raw ip) ip
        = normalizeStdlibReturnType raw ip
      <-> HasPrefix (normalizeStdlibReturnType raw ip) "*" = false
          /\ HasPrefix (normalizeStdlibReturnType raw ip) "[]" = false).
Proof.
  assert (H : stdlibNormalizeType (stdlibNormalizeType raw ip) ip
              = stdlibNormalizeType raw ip
              <-> HasPrefix (stdlibNormalizeType raw ip) "*" = false
                  /\ HasPrefix (stdlibNormalizeType raw ip) "[]" = false).
  { destruct (normalize_output raw ip) as [E|E].
    - rewrite E. split; [intros _; split; reflexivity | reflexivity].
    - rewrite (normalize_qualified _ ip E). apply strip_qualifiers_fixed. }
  split; exact H.
Qed.

(** C8, counterexample: a slice of pointers to a type of another package,
    [[]*io.Reader], normalizes to [*io.Reader] and that to [io.Reader]. *)
Lemma normalize_not_idempotent :
  stdlibNormalizeType "[]*io.Reader" "net/http" = "*io.Reader"
  /\ stdlibNormalizeType (stdlibNormalizeType "[]*io.Reader" "net/http") "net/http"
       = "io.Reader"
  /\ stdlibNormalizeType (stdlibNormalizeType "[]*io.Reader" "net/http") "net/http"
       <> stdlibNormalizeType "[]*io.Reader" "net/http"
  /\ normalizeStdlibReturnType (normalizeStdlibReturnType "[]*io.Reader" "net/http") "net/http"
       <> normalizeStdlibReturnType "[]*io.Reader" "net/http".
Proof. repeat split; try reflexivity; vm_compute; discriminate. Qed.

(** ** The import classifier *)

Lemma fallback_iff (p : string) :
  isStdlibImportFallback p = true <->
  ~ In "."%char (list_ascii_of_string p) /\ ~ (exists rest, p = "internal/" ++ rest).
Proof.
  unfold isStdlibImportFallback.
  rewrite <- Contains_dot_In, <- HasPrefix_spec.
  destruct (HasPrefix p "internal/"), (Contains p "."); simpl;
    intuition congruence.
Qed.

(** C7: without a Stdlib Loader an import path is reported as stdlib if and
    only if it holds no ['.'] and does not begin with ["internal/"]. *)
Theorem fallback_classifier_iff (r : GoImportResolver) (p : string) :
  noLoader r ->
  (isStdlibImport r p = true <->
   ~ In "."%char (list_ascii_of_string p) /\ ~ (exists rest, p = "internal/" ++ rest)).
Proof.
  unfold noLoader, isStdlibImport. intros H.
  destruct (registry r) as [reg|]; [rewrite H|]; apply fallback_iff.
Qed.

(** C7 at a registry without loader: [net/http] is reported as stdlib and has
    no dot, [internal/foo] is not. *)
Lemma fallback_classifier_iff_witness :
  noLoader (NewGoImportResolver (Some NewGoModuleRegistry))
  /\ isStdlibImport (NewGoImportResolver (Some NewGoModuleRegistry)) "net/http" = true
  /\ ~ In "."%char (list_ascii_of_string "net/http")
  /\ isStdlibImport (NewGoImportResolver (Some NewGoModuleRegistry)) "internal/foo" = false.
Proof.
  assert (H : noLoader (NewGoImportResolver (Some NewGoModuleRegistry))) by reflexivity.
  split; [exact H|]. split; [reflexivity|]. split.
  - apply (proj1 (fallback_classifier_iff _ "net/http" H)). reflexivity.
  - reflexivity.
Defined.

(** C6, counterexample: with no registry (hence no loader) nothing validates
    ["fmt"], yet [ClassifyImport] answers stdlib, by the fallback heuristic. *)
Lemma classify_without_loader_differs :
  ClassifyImport (NewGoImportResolver None) "fmt" = ImportStdlib
  /\ ClassifyImport_spec (NewGoImportResolver None) "fmt" = ImportThirdParty
  /\ ~ (forall r p, ClassifyImport r p = ClassifyImport_spec r p).
Proof.
  split; [reflexivity|]. split; [reflexivity|].
  intros H. specialize (H (NewGoImportResolver None) "fmt"). discriminate H.
Qed.

Lemma isStdlibImport_verdict r p : isStdlibImport r p = true <-> stdlibVerdict r p.
Proof.
  unfold stdlibVerdict, isStdlibImport, noLoader.
  destruct (registry r) as [reg|].
  - destruct (StdlibLoader reg) as [loader|] eqn:EL.
    + split.
      * intros H. left. now exists reg, loader.
      * intros [(reg' & loader' & E1 & E2 & H)|[H _]]; [|discriminate].
        injection E1 as <-. rewrite EL in E2. injection E2 as <-. exact H.
    + rewrite fallback_iff. split.
      * intros H. right. tauto.
      * intros [(reg' & loader' & E1 & E2 & H)|H]; [|tauto].
        injection E1 as <-. rewrite EL in E2. discriminate.
  - rewrite fallback_iff. split.
    + intros H. right. tauto.
    + intros [(reg' & loader' & E1 & _)|H]; [discriminate | tauto].
Qed.

(** What [ClassifyImport] does, case by case: the second test is on the bytes
    of the module path. *)
Lemma ClassifyImport_cases r p :
  (ClassifyImport r p = ImportStdlib <-> isStdlibImport r p = true)
  /\ (ClassifyImport r p = ImportLocal <->
      isStdlibImport r p = false /\ HasPrefix p "." || startsWithModulePath r p = true)
  /\ (ClassifyImport r p = ImportThirdParty <->
      isStdlibImport r p = false /\ HasPrefix p "." || startsWithModulePath r p = false).
Proof.
  unfold ClassifyImport. fold (startsWithModulePath r p).
  destruct (isStdlibImport r p), (HasPrefix p "."), (startsWithModulePath r p); simpl;
    intuition congruence.
Qed.

(** Away from the paths that leave the module path inside a segment, the test
    on the bytes is the test for a path of the module. *)
Lemma local_verdict r p :
  ~ insideSegment r p ->
  (HasPrefix p "." || startsWithModulePath r p = true <-> localPath r p).
Proof.
  intros Hns. unfold localPath, startsWithModulePath.
  rewrite orb_true_iff, HasPrefix_spec. split.
  - intros [H|H]; [now left|].
    destruct (registry r) as [reg|] eqn:ER; [|discriminate].
    apply andb_true_iff in H as [Hne Hp]. apply negb_true_iff, String.eqb_neq in Hne.
    apply HasPrefix_spec in Hp as [rest ->].
    destruct rest as [|c rest].
    + right. exists reg. rewrite append_nil_r. auto.
    + destruct (ascii_dec c "/") as [->|Hc].
      * right. exists reg. split; [reflexivity|]. split; [exact Hne|].
        right. now exists rest.
      * destruct (HasPrefix (ModulePath reg ++ String c rest) ".") eqn:Hrel.
        -- left. now apply HasPrefix_spec.
        -- exfalso. apply Hns. split.
           ++ intros Hr. apply HasPrefix_spec in Hr. congruence.
           ++ now exists reg, c, rest.
  - intros [H|(reg & ER & Hne & [->|[rest ->]])]; [now left| |]; right; rewrite ER.
    + apply andb_true_iff. split; [now apply negb_true_iff, String.eqb_neq|].
      apply HasPrefix_spec. exists "". now rewrite append_nil_r.
    + apply andb_true_iff. split; [now apply negb_true_iff, String.eqb_neq|].
      apply HasPrefix_spec. now exists ("/" ++ rest).
Qed.

(** C6, as amended: [ClassifyImport] answers stdlib when the Stdlib Loader
    validates the path or, with no loader attached, when the fallback
    heuristic accepts it; otherwise local when the path starts with ['.'] or
    is the module's own path or a path under it; otherwise third-party.  The
    paths that begin with the bytes of the module path and go on inside a
    segment are left aside. *)
Theorem ClassifyImport_rule (r : GoImportResolver) (p : string) :
  ~ insideSegment r p ->
  (ClassifyImport r p = ImportStdlib <-> stdlibVerdict r p)
  /\ (ClassifyImport r p = ImportLocal <-> ~ stdlibVerdict r p /\ localPath r p)
  /\ (ClassifyImport r p = ImportThirdParty <-> ~ stdlibVerdict r p /\ ~ localPath r p).
Proof.
  intros Hns. rewrite <- isStdlibImport_verdict, <- (local_verdict r p Hns).
  destruct (ClassifyImport_cases r p) as (HS & HL & HT).
  rewrite HS, HL, HT.
  destruct (isStdlibImport r p), (HasPrefix p "." || startsWithModulePath r p);
    intuition congruence.
Qed.

(** C6, as amended, at a package of the module and at an unrelated one. *)
Lemma ClassifyImport_rule_witness :
  ClassifyImport myappResolver "github.com/myapp/handlers" = ImportLocal
  /\ (ClassifyImport myappResolver "github.com/gorilla/mux" = ImportThirdParty
      <-> ~ stdlibVerdict myappResolver "github.com/gorilla/mux"
          /\ ~ localPath myappResolver "github.com/gorilla/mux").
Proof.
  assert (Hdot : forall p, In "."%char (list_ascii_of_string p) ->
                           ~ stdlibVerdict myappResolver p).
  { intros p Hin [(reg & loader & E & EL & _)|(_ & H & _)]; [|exact (H Hin)].
    injection E as <-. discriminate EL. }
  split.
  - apply (proj1 (proj2 (ClassifyImport_rule myappResolver "github.com/myapp/handlers"
                           ltac:(intros [_ (reg & c & rest & E & _ & Hp & Hc)];
                                 injection E as <-; cbv in Hp; congruence)))).
    split.
    + apply Hdot. cbn. tauto.
    + right. eexists. split; [reflexivity|]. split; [discriminate|].
      right. now exists "handlers".
  - apply (proj2 (proj2 (ClassifyImport_rule myappResolver "github.com/gorilla/mux"
                           ltac:(intros [_ (reg & c & rest & E & _ & Hp & Hc)];
                                 injection E as <-; cbv in Hp; congruence)))).
Defined.

(** The paths left aside: a sibling module whose path begins with the bytes of
    the module path is classified local, although it is no path of the
    module. *)
Lemma sibling_module_classified_local :
  ClassifyImport myappResolver "github.com/myapp2/x" = ImportLocal
  /\ underModulePath myappResolver "github.com/myapp2/x" = false
  /\ insideSegment myappResolver "github.com/myapp2/x".
Proof.
  split; [reflexivity|]. split; [reflexivity|]. split.
  - intros [rest H]. discriminate H.
  - exists (mkRegistry "github.com/myapp" "1.21" ∅ ∅ None), "2"%char, "/x".
    repeat split; discriminate.
Qed.

(** ** Call sites and the Stdlib Loader *)

(** C1: a call site is flagged stdlib only when a Stdlib Loader is attached and
    validated the import path the call's qualifier is bound to; with no loader
    attached the flag is false for every call site. *)
Theorem isStdlib_only_by_loader (cs : CallSiteInternal) (im : GoImportMap)
    (reg : GoModuleRegistry) (varType : string -> option string) (pkg : string) :
  (IsStdlib (emitCallSite cs im reg varType pkg) = true ->
   exists loader importPath,
     StdlibLoader reg = Some loader
     /\ Imports im !! ObjectName cs = Some importPath
     /\ ValidateStdlibImport loader importPath = true
     /\ TargetFQN (emitCallSite cs im reg varType pkg) = importPath ++ "." ++ FunctionName cs)
  /\ (StdlibLoader reg = None ->
      snd (resolveGoCallTarget cs im reg varType pkg) = false
      /\ IsStdlib (emitCallSite cs im reg varType pkg) = false).
Proof.
  unfold emitCallSite, resolveGoCallTarget.
  destruct (negb (ObjectName cs =? "")).
  - destruct (Imports im !! ObjectName cs) as [importPath|].
    + destruct (StdlibLoader reg) as [loader|]; simpl; split.
      * intros H. now exists loader, importPath.
      * discriminate.
      * discriminate.
      * auto.
    + destruct (varType (ObjectName cs)); simpl; split; auto; discriminate.
  - destruct (existsb _ goBuiltins); simpl; split; auto; discriminate.
Qed.

(** C1 at two call sites: [http.Get] under a loader that validates [net/http],
    and [fmt.Println] under a registry without loader. *)
Lemma isStdlib_only_by_loader_witness :
  (exists loader importPath,
     StdlibLoader (projRegistry (Some httpLoader)) = Some loader
     /\ ({[ "http" := "net/http" ]} : gmap string string) !! "http" = Some importPath
     /\ ValidateStdlibImport loader importPath = true
     /\ TargetFQN (emitCallSite (mkCallSiteInternal "Get" "http")
                     (mkImportMap "main" {[ "http" := "net/http" ]})
                     (projRegistry (Some httpLoader)) (fun _ => None) "main")
        = importPath ++ ".Get")
  /\ IsStdlib (emitCallSite (mkCallSiteInternal "Println" "fmt")
                 (mkImportMap "main" {[ "fmt" := "fmt" ]})
                 (projRegistry None) (fun _ => None) "main") = false.
Proof.
  split.
  - exact (proj1 (isStdlib_only_by_loader (mkCallSiteInternal "Get" "http")
                    (mkImportMap "main" {[ "http" := "net/http" ]})
                    (projRegistry (Some httpLoader)) (fun _ => None) "main")
                 eq_refl).
  - exact (proj2 (proj2 (isStdlib_only_by_loader (mkCallSiteInternal "Println" "fmt")
                    (mkImportMap "main" {[ "fmt" := "fmt" ]})
                    (projRegistry None) (fun _ => None) "main")
                 eq_refl)).
Defined.

(** ** Pass 2b *)

(** C10: for a file that parses and whose directory is not a key of the
    registry's directory-to-import map, [ExtractGoVariableAssignments] returns
    a nil error and the engine it was given: no scope and no binding is
    added. *)
Theorem extract_outside_registry (host : Host) (filePath sourceCode : string)
    (e : GoTypeInferenceEngine) (reg : GoModuleRegistry) (im : option GoImportMap)
    (root : Node) :
  ParseCtx host sourceCode = inl root ->
  DirToImport reg !! registryDir host filePath = None ->
  ExtractGoVariableAssignments host filePath sourceCode e reg im = (e, None).
Proof.
  intros Hparse Hdir. unfold ExtractGoVariableAssignments.
  rewrite Hparse. cbv zeta. now rewrite Hdir.
Qed.

(** C10 at a file of the module cache, outside the project at [/proj]. *)
Lemma extract_outside_registry_witness :
  ExtractGoVariableAssignments (scenarioHost [("s1", s1Tree)])
    "/go/pkg/mod/github.com/gorilla/mux/mux.go" "s1"
    (NewGoTypeInferenceEngine (Some (projRegistry (Some httpLoader))))
    (projRegistry (Some httpLoader)) s1Imports
  = (NewGoTypeInferenceEngine (Some (projRegistry (Some httpLoader))), None).
Proof.
  apply (extract_outside_registry _ _ _ _ _ _ s1Tree); reflexivity.
Defined.

(** With the engine built on the registry that carries the loader, the
    stdlib lookup inside [GetReturnType] succeeds whenever the later lookup of
    [inferTypeFromStdlibFunction] would: the two loops skip the same returns. *)
Lemma registry_return_only_if_stdlib_return returns ip :
  firstStdlibReturn returns ip = None -> firstRegistryReturn returns ip = None.
Proof.
  induction returns as [|ret rest IH]; [reflexivity|].
  cbn [firstStdlibReturn firstRegistryReturn].
  change (normalizeStdlibReturnType (RetType ret) ip)
    with (stdlibNormalizeType (RetType ret) ip).
  destruct ((RetType ret =? "") || (RetType ret =? "error")); [exact IH|].
  destruct (stdlibNormalizeType (RetType ret) ip =? ""); [exact IH | discriminate].
Qed.

Lemma stdlib_registry_unreachable (host : Host) (callNode : Node) (filePath : string)
    (e : GoTypeInferenceEngine) (reg : GoModuleRegistry) (im : option GoImportMap)
    (t : TypeInfo) :
  Registry e = Some reg ->
  inferTypeFromFunctionCall host callNode filePath e reg im = Some t ->
  GetReturnType e
    (let f := match ChildByFieldName callNode "function" with
              | Some fn => extractGoFunctionName fn im
              | None => ""
              end in
     if negb (Contains f ".")
     then match DirToImport reg !! Dir host filePath with
          | Some packagePath => packagePath ++ "." ++ f
          | None => f
          end
     else f) = Some t.
Proof.
  intros HR. unfold inferTypeFromFunctionCall.
  destruct (ChildByFieldName callNode "function") as [fn|]; [|discriminate].
  destruct (extractGoFunctionName fn im =? ""); [discriminate|].
  cbv zeta.
  set (f := if negb (Contains (extractGoFunctionName fn im) ".") then _ else _).
  destruct (GetReturnType e f) as [t'|] eqn:EG; [auto|].
  intros H. exfalso. revert EG H.
  unfold GetReturnType, inferTypeFromStdlibFunction. rewrite HR.
  destruct (ReturnTypes e !! f); [discriminate|].
  destruct (StdlibLoader reg) as [loader|]; [|destruct (0 <? _)%Z; discriminate].
  cbv zeta.
  destruct (Z.leb_spec (LastIndex f ".") 0) as [Hle|Hlt].
  - intros _. destruct (Z.ltb_spec 0 (LastIndex f ".")); [lia | discriminate].
  - destruct (Z.ltb_spec 0 (LastIndex f ".")); [|lia].
    destruct (negb (ValidateStdlibImport loader _)); [discriminate|].
    destruct (GetFunction loader _ _) as [fnc|]; [|discriminate].
    intros H1 H2. apply registry_return_only_if_stdlib_return in H1.
    destruct (Returns fnc); [discriminate | congruence].
Qed.

(** C3, on the code: in scenario S1 the latest binding of [resp] has type
    [net/http.Response], yet its source is ["stdlib"] and its confidence 1.0:
    [GetReturnType] already answers from the loader, so the lookup that tags
    ["stdlib_registry"] with 0.9 is not reached. *)
Theorem s1_resp_tagged_stdlib :
  Type_ <$> latestOf s1Engine "main.main" "resp"
  = Some (mkTypeInfo "net/http.Response" 1 "stdlib")
  /\ inferTypeFromStdlibFunction "net/http" "Get" (projRegistry (Some httpLoader))
     = Some (mkTypeInfo "net/http.Response" (9 # 10) "stdlib_registry").
Proof. split; vm_compute; reflexivity. Qed.

(** The ["stdlib_registry"] tag with confidence 0.9 does appear in S1 when the
    type engine holds no registry, so that only the later lookup sees the
    loader. *)
Lemma s1_resp_tagged_registry_when_detached :
  Type_ <$> latestOf s1DetachedEngine "main.main" "resp"
  = Some (mkTypeInfo "net/http.Response" (9 # 10) "stdlib_registry").
Proof. vm_compute. reflexivity. Qed.

(** Induction over a syntax tree: a property of a node follows from the
    property of the nodes under it. *)
Lemma Node_induction (P : Node -> Prop) :
  (forall t c r kids, Forall (fun k => P (Child k)) kids -> P (MkNode t c r kids)) ->
  forall n, P n.
Proof.
  intros H. fix IH 1. intros [t c r kids]. apply H.
  induction kids as [|[f nm ch] ks IHks]; constructor; [apply IH | exact IHks].
Qed.

(** What one added binding does to the bindings seen through the engine. *)
Lemma bindingsOf_bindInScope e fqn b fqn' name :
  bindingsOf (bindInScope e fqn b) fqn' name =
    if decide (fqn = fqn' /\ VarName b = name)
    then (bindingsOf e fqn' name ++ [b])%list
    else bindingsOf e fqn' name.
Proof.
  unfold bindInScope, bindingsOf, GetScope, GetAllBindings.
  destruct (Scopes e !! fqn) as [scope|] eqn:E; cbn [Scopes AddScope].
  - destruct (decide (fqn = fqn')) as [<-|Hf].
    + rewrite lookup_insert_eq, E. unfold slot at 1. cbn [Variables AddVariable].
      destruct (decide (VarName b = name)) as [<-|Hn].
      * rewrite lookup_insert_eq. rewrite decide_True by auto. reflexivity.
      * rewrite lookup_insert_ne by auto. rewrite decide_False by tauto. reflexivity.
    + rewrite lookup_insert_ne by auto. rewrite decide_False by tauto. reflexivity.
  - cbn [FunctionFQN NewGoFunctionScope].
    destruct (decide (fqn = fqn')) as [<-|Hf].
    + rewrite lookup_insert_eq, E. unfold slot. cbn [Variables AddVariable NewGoFunctionScope].
      destruct (decide (VarName b = name)) as [<-|Hn].
      * rewrite lookup_insert_eq. rewrite decide_True by auto. reflexivity.
      * rewrite lookup_insert_ne, lookup_empty by auto.
        rewrite decide_False by tauto. reflexivity.
    + rewrite !lookup_insert_ne by auto. rewrite decide_False by tauto. reflexivity.
Qed.








(** ** Line order of the bindings *)
















(** Scenario S4: [getVariable("u")] is the line-20 binding and
    [getAllBindings("u")] holds the line-10 and the line-20 binding, in that
    order. *)
Lemma s4_reassignment :
  map lineOf (bindingsOf s4Engine "main.main" "u") = [10; 20]
  /\ lineOf <$> latestOf s4Engine "main.main" "u" = Some 20.
Proof. split; vm_compute; reflexivity. Qed.


(** ** [GetReturnType] *)

Lemma HasPrefix_dot_cons c s : HasPrefix (String c s) "." = Ascii.eqb "." c.
Proof. now rewrite HasPrefix_cons, HasPrefix_nil_r, andb_true_r. Qed.

Lemma LastIndex_from_no_dot s : forall i acc,
  Contains s "." = false -> LastIndex_from s "." i acc = acc.
Proof.
  induction s as [|c s IH]; intros i acc H; [reflexivity|].
  rewrite Contains_dot_cons in H. apply orb_false_iff in H as [Hc Hs].
  cbn [LastIndex_from]. rewrite HasPrefix_dot_cons, Hc. now apply IH.
Qed.

Lemma LastIndex_from_split ip fn : forall i acc,
  Contains fn "." = false ->
  LastIndex_from (ip ++ "." ++ fn) "." i acc = (i + Z.of_nat (String.length ip))%Z.
Proof.
  induction ip as [|c ip IH]; intros i acc H.
  - change ("" ++ "." ++ fn) with (String "." fn).
    cbn [LastIndex_from]. rewrite HasPrefix_dot_cons. cbn [Ascii.eqb Bool.eqb].
    rewrite LastIndex_from_no_dot by exact H. simpl. lia.
  - change (String c ip ++ "." ++ fn) with (String c (ip ++ "." ++ fn)).
    cbn [LastIndex_from]. rewrite IH by exact H. simpl String.length. lia.
Qed.

Lemma split_last_dot s :
  Contains s "." = true ->
  exists ip fn, s = ip ++ "." ++ fn /\ Contains fn "." = false.
Proof.
  induction s as [|c s IH]; [discriminate|].
  rewrite Contains_dot_cons. destruct (Contains s ".") eqn:Hs.
  - intros _. destruct (IH eq_refl) as (ip & fn & -> & Hfn).
    now exists (String c ip), fn.
  - rewrite orb_false_r. intros Hc. apply Ascii.eqb_eq in Hc as <-.
    now exists "", s.
Qed.

(** Splitting at [strings.LastIndex(s, ".")]. *)
Lemma LastIndex_dot_split ip fn :
  Contains fn "." = false ->
  LastIndex (ip ++ "." ++ fn) "." = Z.of_nat (String.length ip)
  /\ take (Z.to_nat (LastIndex (ip ++ "." ++ fn) ".")) (ip ++ "." ++ fn) = ip
  /\ drop (Z.to_nat (LastIndex (ip ++ "." ++ fn) "." + 1)) (ip ++ "." ++ fn) = fn.
Proof.
  intros H. unfold LastIndex. rewrite LastIndex_from_split by exact H.
  rewrite Z.add_0_l. split; [reflexivity|].
  replace (Z.to_nat (Z.of_nat (String.length ip) + 1))
    with (String.length (ip ++ ".")) by (rewrite length_append; simpl; lia).
  rewrite Nat2Z.id. split; [apply take_app_length|].
  rewrite <- append_assoc. apply drop_app_length.
Qed.

Lemma LastIndex_dot_none s : Contains s "." = false -> LastIndex s "." = (-1)%Z.
Proof. intros H. unfold LastIndex. now apply LastIndex_from_no_dot. Qed.

Lemma usableReturn_dec ip r :
  (RetType r =? "") || (RetType r =? "error") = false
  /\ (stdlibNormalizeType (RetType r) ip =? "") = false
  <-> usableReturn ip r.
Proof.
  unfold usableReturn. rewrite orb_false_iff, !String.eqb_neq. tauto.
Qed.

Lemma firstStdlibReturn_Some returns ip t :
  firstStdlibReturn returns ip = Some t <->
  exists skipped ret rest,
    returns = (skipped ++ ret :: rest)%list
    /\ Forall (fun r => ~ usableReturn ip r) skipped
    /\ usableReturn ip ret
    /\ t = mkTypeInfo (stdlibNormalizeType (RetType ret) ip) 1 "stdlib".
Proof.
  induction returns as [|r returns IH]; cbn [firstStdlibReturn].
  - split; [discriminate|]. intros (skipped & ret & rest & H & _).
    destruct skipped; discriminate.
  - assert (Hskip : ~ usableReturn ip r ->
              (firstStdlibReturn returns ip = Some t <->
               exists skipped ret rest,
                 (r :: returns = skipped ++ ret :: rest)%list
                 /\ Forall (fun r => ~ usableReturn ip r) skipped
                 /\ usableReturn ip ret
                 /\ t = mkTypeInfo (stdlibNormalizeType (RetType ret) ip) 1 "stdlib")).
    { intros Hr. rewrite IH. split.
      - intros (skipped & ret & rest & -> & Hs & Hu & ->).
        exists (r :: skipped), ret, rest.
        split; [reflexivity|]. split; [now constructor|]. now split.
      - intros (skipped & ret & rest & E & Hs & Hu & ->).
        destruct skipped as [|r' skipped].
        + injection E as <- <-. contradiction.
        + injection E as <- ->. inversion Hs; subst.
          exists skipped, ret, rest.
          split; [reflexivity|]. split; [assumption|]. now split. }
    destruct ((RetType r =? "") || (RetType r =? "error")) eqn:E1.
    { apply Hskip. rewrite <- usableReturn_dec. intros [? ?]; congruence. }
    destruct (stdlibNormalizeType (RetType r) ip =? "") eqn:E2.
    { apply Hskip. rewrite <- usableReturn_dec. intros [? ?]; congruence. }
    assert (Hu : usableReturn ip r) by (apply usableReturn_dec; auto).
    split.
    + intros [= <-]. exists [], r, returns.
      split; [reflexivity|]. split; [constructor|]. now split.
    + intros (skipped & ret & rest & E & Hs & _ & ->).
      destruct skipped as [|r' skipped].
      * now injection E as <- <-.
      * injection E as <- ->. inversion Hs; subst. contradiction.
Qed.

Lemma last_dot_split_unique ip fn ip' fn' :
  ip ++ "." ++ fn = ip' ++ "." ++ fn' ->
  Contains fn "." = false -> Contains fn' "." = false ->
  ip = ip' /\ fn = fn'.
Proof.
  intros E H H'.
  destruct (LastIndex_dot_split ip fn H) as (_ & Ht & Hd).
  destruct (LastIndex_dot_split ip' fn' H') as (_ & Ht' & Hd').
  rewrite <- E in Ht', Hd'. split; congruence.
Qed.

(** [GetReturnType] on a local miss, for an FQN split at its last dot. *)
Lemma GetReturnType_miss e reg loader ip fn :
  ReturnTypes e !! (ip ++ "." ++ fn) = None ->
  Registry e = Some reg -> StdlibLoader reg = Some loader ->
  Contains fn "." = false ->
  GetReturnType e (ip ++ "." ++ fn) =
    if ip =? "" then None
    else if ValidateStdlibImport loader ip then
           match GetFunction loader ip fn with
           | Some f => firstStdlibReturn (Returns f) ip
           | None => None
           end
         else None.
Proof.
  intros EL ER ES Hfn. unfold GetReturnType. rewrite EL, ER, ES. cbv zeta.
  destruct (LastIndex_dot_split ip fn Hfn) as (Hi & Ht & Hd).
  rewrite Ht, Hd, Hi.
  destruct ip as [|c ip]; [reflexivity|].
  cbn [String.length String.eqb].
  destruct (Z.leb_spec (Z.of_nat (S (String.length ip))) 0) as [Hle|_]; [lia|].
  now destruct (ValidateStdlibImport loader (String c ip)).
Qed.

(** C2, as amended: [GetReturnType] answers the locally-registered entry when
    there is one; on a local miss it answers from the stdlib exactly when a
    loader is attached, the FQN splits at its last ['.'] into a non-empty
    import path the loader validates and a function the loader knows, and
    some return of that function is usable (raw type not empty, not ["error"],
    and not normalizing to the empty string): the answer is the normalized
    first usable return, with source ["stdlib"] and confidence 1.0.  In every
    other case it reports not-found. *)
Theorem GetReturnType_rule (e : GoTypeInferenceEngine) (fqn : string) (t : TypeInfo) :
  GetReturnType e fqn = Some t <->
  ReturnTypes e !! fqn = Some t
  \/ (ReturnTypes e !! fqn = None
      /\ exists reg loader ip fn f skipped ret rest,
           Registry e = Some reg /\ StdlibLoader reg = Some loader
           /\ fqn = ip ++ "." ++ fn /\ ip <> ""
           /\ ~ In "."%char (list_ascii_of_string fn)
           /\ ValidateStdlibImport loader ip = true
           /\ GetFunction loader ip fn = Some f
           /\ Returns f = (skipped ++ ret :: rest)%list
           /\ Forall (fun r => ~ usableReturn ip r) skipped
           /\ usableReturn ip ret
           /\ t = mkTypeInfo (stdlibNormalizeType (RetType ret) ip) 1 "stdlib").
Proof.
  destruct (ReturnTypes e !! fqn) as [t0|] eqn:EL.
  { unfold GetReturnType. rewrite EL. split; [now left|].
    intros [H|[H _]]; [exact H | discriminate]. }
  split.
  - intros H. right. split; [reflexivity|].
    destruct (Registry e) as [reg|] eqn:ER;
      [|unfold GetReturnType in H; rewrite EL, ER in H; discriminate].
    destruct (StdlibLoader reg) as [loader|] eqn:ES;
      [|unfold GetReturnType in H; rewrite EL, ER, ES in H; discriminate].
    destruct (Contains fqn ".") eqn:EC.
    + destruct (split_last_dot fqn EC) as (ip & fn & -> & Hfn).
      rewrite (GetReturnType_miss e reg loader ip fn EL ER ES Hfn) in H.
      destruct (String.eqb_spec ip "") as [|Hip]; [discriminate|].
      destruct (ValidateStdlibImport loader ip) eqn:EV; [|discriminate].
      destruct (GetFunction loader ip fn) as [f|] eqn:EF; [|discriminate].
      apply firstStdlibReturn_Some in H as (skipped & ret & rest & Hr & Hs & Hu & Ht).
      exists reg, loader, ip, fn, f, skipped, ret, rest.
      repeat (split; [first [reflexivity | assumption]|]).
      split; [rewrite <- Contains_dot_In; congruence|].
      repeat (split; [first [reflexivity | assumption]|]). exact Ht.
    + unfold GetReturnType in H. rewrite EL, ER, ES in H. cbv zeta in H.
      rewrite (LastIndex_dot_none fqn EC) in H. discriminate.
  - intros [H|[_ H]]; [discriminate|].
    destruct H as (reg & loader & ip & fn & f & skipped & ret & rest
                   & ER & ES & -> & Hip & Hfn & EV & EF & Hr & Hs & Hu & Ht).
    assert (Hfn' : Contains fn "." = false).
    { destruct (Contains fn ".") eqn:E; [|reflexivity].
      exfalso. apply Hfn. now apply Contains_dot_In. }
    rewrite (GetReturnType_miss e reg loader ip fn EL ER ES Hfn').
    destruct (String.eqb_spec ip "") as [|_]; [contradiction|].
    rewrite EV, EF. apply firstStdlibReturn_Some.
    now exists skipped, ret, rest.
Qed.

(** C2, counterexample: the manifest lists ["[]"] and then ["string"] as the
    returns of [bytes.Fields].  The first return whose raw string is non-empty
    and not ["error"] is ["[]"], which normalizes to the empty string;
    [GetReturnType] skips it and answers [builtin.string]. *)
Lemma GetReturnType_skips_empty_normalization :
  GetReturnType oddEngine "bytes.Fields" = Some (mkTypeInfo "builtin.string" 1 "stdlib")
  /\ GetReturnType_spec oddEngine "bytes.Fields" = Some (mkTypeInfo "" 1 "stdlib")
  /\ ~ (forall e fqn, GetReturnType e fqn = GetReturnType_spec e fqn).
Proof.
  split; [vm_compute; reflexivity|]. split; [vm_compute; reflexivity|].
  intros H. specialize (H oddEngine "bytes.Fields"). vm_compute in H. discriminate H.
Qed.

(** Scenario S3: an entry added locally for [fmt.Sprintf] is what
    [GetReturnType] answers, whatever the loader says. *)
Lemma local_entry_wins (e : GoTypeInferenceEngine) (fqn : string) (custom : TypeInfo) :
  GetReturnType (AddReturnType e fqn custom) fqn = Some custom.
Proof.
  unfold GetReturnType, AddReturnType. cbn [ReturnTypes].
  now rewrite lookup_insert_eq.
Qed.

(** ** Version detection *)

Lemma SplitByte_no_dot a : Contains a "." = false -> SplitByte a "." = [a].
Proof.
  induction a as [|c a IH]; [reflexivity|].
  rewrite Contains_dot_cons. intros H. apply orb_false_iff in H as [Hc Ha].
  cbn [SplitByte]. destruct (Ascii.eqb_spec c ".") as [->|_]; [discriminate|].
  now rewrite (IH Ha).
Qed.

Lemma SplitByte_app_dot a b :
  Contains a "." = false -> SplitByte (a ++ "." ++ b) "." = a :: SplitByte b ".".
Proof.
  induction a as [|c a IH]; [reflexivity|].
  rewrite Contains_dot_cons. intros H. apply orb_false_iff in H as [Hc Ha].
  change (String c a ++ "." ++ b) with (String c (a ++ "." ++ b)).
  cbn [SplitByte]. destruct (Ascii.eqb_spec c ".") as [->|_]; [discriminate|].
  now rewrite (IH Ha).
Qed.

Lemma SplitByte_fields s : Forall (fun f => Contains f "." = false) (SplitByte s ".").
Proof.
  induction s as [|c s IH]; [repeat constructor|].
  cbn [SplitByte]. destruct (Ascii.eqb_spec c ".") as [->|Hc].
  - constructor; [reflexivity | exact IH].
  - destruct (SplitByte s ".") as [|f fs]; [repeat constructor|].
    + rewrite Contains_dot_cons.
      destruct (Ascii.eqb_spec "." c) as [E|_]; [now symmetry in E | reflexivity].
    + inversion IH; subst. constructor; [|assumption].
      rewrite Contains_dot_cons.
      destruct (Ascii.eqb_spec "." c) as [E|_]; [now symmetry in E | assumption].
Qed.

(** [normalizeGoVersion] keeps the first two dot-separated fields, so its
    result has no third field and normalizing again changes nothing. *)
Lemma normalizeGoVersion_fields v :
  normalizeGoVersion (normalizeGoVersion v) = normalizeGoVersion v
  /\ length (SplitByte (normalizeGoVersion v) ".") <= 2.
Proof.
  pose proof (SplitByte_fields v) as Hf.
  destruct (SplitByte v ".") as [|a [|b rest]] eqn:E.
  - assert (Hv : normalizeGoVersion v = v) by (unfold normalizeGoVersion; now rewrite E).
    rewrite !Hv, E. simpl. split; [reflexivity | lia].
  - assert (Hv : normalizeGoVersion v = v) by (unfold normalizeGoVersion; now rewrite E).
    rewrite !Hv, E. simpl. split; [reflexivity | lia].
  - assert (Hv : normalizeGoVersion v = a ++ "." ++ b)
      by (unfold normalizeGoVersion; now rewrite E).
    inversion Hf as [|? ? Ha Hf']; subst. inversion Hf' as [|? ? Hb _]; subst.
    assert (Hs : SplitByte (a ++ "." ++ b) "." = [a; b])
      by now rewrite (SplitByte_app_dot a b Ha), (SplitByte_no_dot b Hb).
    rewrite Hv. unfold normalizeGoVersion. rewrite Hs. simpl. split; [reflexivity | lia].
Qed.

Lemma digit_not_dot c : isDigit c = true -> Ascii.eqb "." c = false.
Proof. destruct (Ascii.eqb_spec "." c) as [<-|]; [discriminate | reflexivity]. Qed.

Lemma allDigits_no_dot d : allDigits d = true -> Contains d "." = false.
Proof.
  unfold allDigits. induction d as [|c d IH]; [reflexivity|].
  cbn [list_ascii_of_string forallb]. rewrite andb_true_iff. intros [Hc Hd].
  now rewrite Contains_dot_cons, (digit_not_dot c Hc), (IH Hd).
Qed.

Lemma spanDigits_digits s : allDigits (fst (spanDigits s)) = true.
Proof.
  induction s as [|c s IH]; [reflexivity|].
  cbn [spanDigits]. destruct (isDigit c) eqn:Hc; [|reflexivity].
  destruct (spanDigits s) as [d r]. unfold allDigits in *. simpl in *.
  now rewrite Hc, IH.
Qed.

Lemma isMajorMinor_digits major minor :
  major <> "" -> minor <> "" -> allDigits major = true -> allDigits minor = true ->
  isMajorMinor (major ++ "." ++ minor) = true.
Proof.
  intros Hm Hn Dm Dn. unfold isMajorMinor.
  rewrite (SplitByte_app_dot _ _ (allDigits_no_dot _ Dm)).
  rewrite (SplitByte_no_dot _ (allDigits_no_dot _ Dn)).
  rewrite Dm, Dn. apply String.eqb_neq in Hm, Hn. now rewrite Hm, Hn.
Qed.

Lemma matchGoDirective_form s v : matchGoDirective s = Some v -> isMajorMinor v = true.
Proof.
  unfold matchGoDirective.
  destruct s as [|c0 [|c1 [|c s]]]; try (repeat match goal with
    | |- context [match ?a with Ascii _ _ _ _ _ _ _ _ => _ end] => destruct a
    | |- context [if ?b then _ else _] => destruct b
    end; discriminate).
  repeat match goal with
    | |- context [match ?a with Ascii _ _ _ _ _ _ _ _ => _ end] => destruct a
    | |- context [if ?b then _ else _] => destruct b
    end; try discriminate.
  pose proof (spanDigits_digits (skipRegexSpace s)) as Dm.
  destruct (spanDigits (skipRegexSpace s)) as [major r1]. cbn [fst] in Dm.
  destruct major as [|m0 major]; [discriminate|].
  destruct r1 as [|d r2]; [discriminate|].
  repeat match goal with
    | |- context [match ?a with Ascii _ _ _ _ _ _ _ _ => _ end] => destruct a
    | |- context [if ?b then _ else _] => destruct b
    end; try discriminate.
  pose proof (spanDigits_digits r2) as Dn.
  destruct (spanDigits r2) as [minor r3]. cbn [fst] in Dn.
  destruct minor as [|n0 minor]; [discriminate|].
  intros [= <-]. now apply isMajorMinor_digits.
Qed.

Lemma findGoDirective_form s : forall lineStart v,
  findGoDirective lineStart s = Some v -> isMajorMinor v = true.
Proof.
  induction s as [|c s IH]; intros lineStart v; cbn [findGoDirective].
  - destruct lineStart; [|discriminate].
    destruct (matchGoDirective "") eqn:E; [|discriminate].
    intros [= <-]. now apply (matchGoDirective_form "").
  - destruct (if lineStart then matchGoDirective (String c s) else None) as [w|] eqn:E.
    + destruct lineStart; [|discriminate].
      intros [= <-]. now apply (matchGoDirective_form (String c s)).
    + apply IH.
Qed.

Lemma parseGoVersionFromFile_form ReadFile path :
  parseGoVersionFromFile ReadFile path = ""
  \/ isMajorMinor (parseGoVersionFromFile ReadFile path) = true.
Proof.
  unfold parseGoVersionFromFile.
  destruct (ReadFile path) as [data|]; [|now left].
  destruct (findGoDirective true data) as [v|] eqn:E; [|now left].
  right. now apply (findGoDirective_form data true).
Qed.

Lemma SplitByte_join s : joinDots (SplitByte s ".") = s.
Proof.
  induction s as [|c s IH]; [reflexivity|].
  cbn [SplitByte]. destruct (Ascii.eqb_spec c ".") as [->|_].
  - destruct (SplitByte s ".") as [|f fs] eqn:E;
      [cbn in IH; subst s; discriminate E|].
    cbn [joinDots] in *. now rewrite IH.
  - destruct (SplitByte s ".") as [|f [|g fs]] eqn:E;
      [cbn in IH; subst s; discriminate E| |].
    + cbn [joinDots] in *. now rewrite IH.
    + cbn [joinDots] in *. rewrite <- IH. reflexivity.
Qed.

Lemma isMajorMinor_normalized v : isMajorMinor v = true -> normalizeGoVersion v = v.
Proof.
  unfold isMajorMinor, normalizeGoVersion. pose proof (SplitByte_join v) as Hj.
  destruct (SplitByte v ".") as [|a [|b [|c rest]]]; try discriminate.
  intros _. exact Hj.
Qed.

Lemma firstNonEmpty_chain a b c d :
  firstNonEmpty [a; b; c] d =
    if negb (a =? "") then a else if negb (b =? "") then b
    else if negb (c =? "") then c else d.
Proof. simpl. now destruct (a =? ""), (b =? ""), (c =? ""). Qed.

(** What [DetectGoVersion] answers: the first non-empty of the go.mod
    directive, the [.go-version] pin and the go.work directive, and ["1.21"]
    when all are empty.  A directive is always in major.minor form; the pin is
    the trimmed file text cut to its first two dot-separated fields and is not
    checked further.  So the answer is unchanged by [normalizeGoVersion], and
    it is in major.minor form unless it is the pin. *)
Lemma DetectGoVersion_rule (ReadFile : string -> option string)
    (Join : string -> string -> string) (TrimSpace : string -> string)
    (projectPath : string) :
  DetectGoVersion ReadFile Join TrimSpace projectPath =
    firstNonEmpty [ parseGoVersionFromFile ReadFile (Join projectPath "go.mod");
                    readGoVersionFile ReadFile Join TrimSpace projectPath;
                    parseGoVersionFromFile ReadFile (Join projectPath "go.work") ]
                  "1.21"
  /\ readGoVersionFile ReadFile Join TrimSpace projectPath =
       match ReadFile (Join projectPath ".go-version") with
       | Some data => normalizeGoVersion (TrimSpace data)
       | None => ""
       end
  /\ normalizeGoVersion (DetectGoVersion ReadFile Join TrimSpace projectPath)
       = DetectGoVersion ReadFile Join TrimSpace projectPath
  /\ length (SplitByte (DetectGoVersion ReadFile Join TrimSpace projectPath) ".") <= 2
  /\ (isMajorMinor (DetectGoVersion ReadFile Join TrimSpace projectPath) = true
      \/ DetectGoVersion ReadFile Join TrimSpace projectPath
           = readGoVersionFile ReadFile Join TrimSpace projectPath).
Proof.
  rewrite firstNonEmpty_chain.
  pose proof (parseGoVersionFromFile_form ReadFile (Join projectPath "go.mod")) as Hmod.
  pose proof (parseGoVersionFromFile_form ReadFile (Join projectPath "go.work")) as Hwork.
  assert (Hpin : readGoVersionFile ReadFile Join TrimSpace projectPath = ""
                 \/ exists raw, readGoVersionFile ReadFile Join TrimSpace projectPath
                                = normalizeGoVersion raw).
  { unfold readGoVersionFile.
    destruct (ReadFile (Join projectPath ".go-version")) as [data|]; [|now left].
    right. now exists (TrimSpace data). }
  split; [|split; [reflexivity|]].
  - unfold DetectGoVersion. cbv zeta.
    destruct (String.eqb_spec (parseGoVersionFromFile ReadFile (Join projectPath "go.mod")) "")
      as [Em|Em]; cbn [negb].
    + destruct (String.eqb_spec (readGoVersionFile ReadFile Join TrimSpace projectPath) "");
        cbn [negb]; [|reflexivity].
      destruct (String.eqb_spec
                  (parseGoVersionFromFile ReadFile (Join projectPath "go.work")) "")
        as [Ew|Ew]; cbn [negb]; [reflexivity|].
      destruct Hwork as [|Hw]; [contradiction | now apply isMajorMinor_normalized].
    + destruct Hmod as [|Hm]; [contradiction | now apply isMajorMinor_normalized].
  - assert (Hcases :
      isMajorMinor (DetectGoVersion ReadFile Join TrimSpace projectPath) = true
      \/ (DetectGoVersion ReadFile Join TrimSpace projectPath
            = readGoVersionFile ReadFile Join TrimSpace projectPath
          /\ exists raw, readGoVersionFile ReadFile Join TrimSpace projectPath
                         = normalizeGoVersion raw)).
    { unfold DetectGoVersion. cbv zeta.
      destruct (String.eqb_spec
                  (parseGoVersionFromFile ReadFile (Join projectPath "go.mod")) "")
        as [Em|Em]; cbn [negb].
      - destruct (String.eqb_spec (readGoVersionFile ReadFile Join TrimSpace projectPath) "")
          as [Ep|Ep]; cbn [negb].
        + destruct (String.eqb_spec
                      (parseGoVersionFromFile ReadFile (Join projectPath "go.work")) "")
            as [Ew|Ew]; cbn [negb]; [now left|].
          destruct Hwork as [|Hw]; [contradiction|].
          left. now rewrite (isMajorMinor_normalized _ Hw).
        + right. split; [reflexivity|]. destruct Hpin as [|Hraw]; [contradiction | exact Hraw].
      - destruct Hmod as [|Hm]; [contradiction|].
        left. now rewrite (isMajorMinor_normalized _ Hm). }
    destruct Hcases as [Hmm|[Hp [raw Hraw]]].
    + split; [now apply isMajorMinor_normalized|]. split; [|now left].
      rewrite <- (isMajorMinor_normalized _ Hmm). apply normalizeGoVersion_fields.
    + rewrite Hp, Hraw.
      split; [apply normalizeGoVersion_fields|].
      split; [apply normalizeGoVersion_fields | now right].
Qed.

(** C9, on the code: for a project whose only version file is a [.go-version]
    holding ["1"] (or a release candidate, ["1.22rc1"]) [DetectGoVersion]
    returns that text, which is not in major.minor form: [readGoVersionFile]
    does not check the shape of the pin, where the go.mod and go.work paths
    only ever return what the directive pattern captured. *)
Theorem DetectGoVersion_pin_not_major_minor :
  DetectGoVersion (pinnedProject "1") slashJoin TrimSpaceASCII "/proj" = "1"
  /\ isMajorMinor (DetectGoVersion (pinnedProject "1") slashJoin TrimSpaceASCII "/proj")
     = false
  /\ DetectGoVersion (pinnedProject "1.22rc1") slashJoin TrimSpaceASCII "/proj" = "1.22rc1"
  /\ isMajorMinor (DetectGoVersion (pinnedProject "1.22rc1") slashJoin TrimSpaceASCII "/proj")
     = false
  /\ ~ (forall ReadFile projectPath,
          isMajorMinor (DetectGoVersion ReadFile slashJoin TrimSpaceASCII projectPath) = true).
Proof.
  repeat (split; [vm_compute; reflexivity|]).
  intros H. specialize (H (pinnedProject "1") "/proj"). vm_compute in H. discriminate H.
Qed.

(** The priority chain and the stripping of the patch component on concrete
    projects: go.mod wins over the pin file, and a pin of 1.22.4 gives 1.22. *)
Lemma DetectGoVersion_examples :
  DetectGoVersion modAndPinProject slashJoin TrimSpaceASCII "/proj" = "1.24"
  /\ DetectGoVersion (pinnedProject "1.22.4") slashJoin TrimSpaceASCII "/proj" = "1.22"
  /\ DetectGoVersion (fun _ => None) slashJoin TrimSpaceASCII "/proj" = "1.21"
  /\ normalizeGoVersion "1.21.4" = "1.21".
Proof. repeat split; vm_compute; reflexivity. Qed.

(* ===================================================================== *)
(** * Further properties of the code                                      *)
(* ===================================================================== *)

Import GoImports LoaderInit SpecMore.

(** ** Scopes and the engine's tables ([go_types.go]) *)

(** X1: after [AddVariable] the binding is the latest of its name, it is
    appended to that name's history, the name is known to the scope, and the
    histories of all other names are what they were. *)
Theorem AddVariable_lookup (s : GoFunctionScope) (b : GoVariableBinding) :
  GetVariable (AddVariable s b) (VarName b) = Some b
  /\ GetAllBindings (AddVariable s b) (VarName b)
     = (GetAllBindings s (VarName b) ++ [b])%list
  /\ HasVariable (AddVariable s b) (VarName b) = true
  /\ FunctionFQN (AddVariable s b) = FunctionFQN s
  /\ (forall other, other <> VarName b ->
      GetAllBindings (AddVariable s b) other = GetAllBindings s other
      /\ GetVariable (AddVariable s b) other = GetVariable s other).
Proof.
  unfold GetVariable, GetAllBindings, HasVariable, AddVariable, slot.
  cbn [Variables FunctionFQN]. rewrite !lookup_insert_eq. cbn [default].
  split; [apply last_snoc|]. split; [reflexivity|]. unfold id.
  split; [rewrite length_app; simpl; apply Nat.ltb_lt; lia|].
  split; [reflexivity|].
  intros other Hne. rewrite !lookup_insert_ne by congruence. now split.
Qed.

(** X2: the three readers of a scope agree: a name has a latest binding
    exactly when [HasVariable] holds, exactly when its history is not empty;
    a new scope knows no name. *)
Theorem scope_readers_agree (s : GoFunctionScope) (name : string) :
  (HasVariable s name = true <-> GetVariable s name <> None)
  /\ (GetVariable s name = None <-> GetAllBindings s name = [])
  /\ (forall b, GetVariable s name = Some b -> In b (GetAllBindings s name))
  /\ (forall fqn, GetVariable (NewGoFunctionScope fqn) name = None
                  /\ HasVariable (NewGoFunctionScope fqn) name = false).
Proof.
  unfold HasVariable, GetVariable, GetAllBindings.
  split; [|split; [|split]].
  - destruct (slot s name) as [|b l]; simpl; [split; [discriminate | congruence]|].
    split; [intros _ | reflexivity].
    destruct (last_is_Some (b :: l)) as [_ H]. destruct H as [x Hx]; [discriminate|].
    simpl in Hx. rewrite Hx. discriminate.
  - rewrite last_None. reflexivity.
  - intros b Hb. apply list_elem_of_In. now apply last_Some_elem_of.
  - intros fqn. unfold slot, NewGoFunctionScope. cbn [Variables].
    rewrite lookup_empty. now split.
Qed.

(** X3: [AddScope] files the scope under its own FQN, replacing whatever was
    there; the scopes of other functions and the table of return types are
    untouched. *)
Theorem AddScope_lookup (e : GoTypeInferenceEngine) (s : GoFunctionScope) :
  GetScope (AddScope e s) (FunctionFQN s) = Some s
  /\ HasScope (AddScope e s) (FunctionFQN s) = true
  /\ (forall fqn, fqn <> FunctionFQN s ->
      GetScope (AddScope e s) fqn = GetScope e fqn
      /\ HasScope (AddScope e s) fqn = HasScope e fqn)
  /\ (forall fqn, GetReturnType (AddScope e s) fqn = GetReturnType e fqn).
Proof.
  unfold GetScope, HasScope, AddScope. cbn [Scopes].
  rewrite !lookup_insert_eq. repeat split; try reflexivity.
  all: now rewrite lookup_insert_ne by congruence.
Qed.

(** X4: a return type added for one function is what [GetReturnType] answers
    for it, whatever the loader would say, and the answers for every other
    function, like all scopes, are what they were. *)
Theorem AddReturnType_lookup (e : GoTypeInferenceEngine) (fqn : string) (t : TypeInfo) :
  GetReturnType (AddReturnType e fqn t) fqn = Some t
  /\ HasReturnType (AddReturnType e fqn t) fqn = true
  /\ (forall other, other <> fqn ->
      GetReturnType (AddReturnType e fqn t) other = GetReturnType e other)
  /\ (forall f, GetScope (AddReturnType e fqn t) f = GetScope e f).
Proof.
  unfold GetReturnType, HasReturnType, AddReturnType, GetScope.
  cbn [ReturnTypes Registry Scopes]. rewrite !lookup_insert_eq.
  repeat split; try reflexivity.
  intros other Hne. now rewrite lookup_insert_ne by congruence.
Qed.

(** X5: with no registry, or a registry without loader, or for an FQN that
    holds no ['.'], [GetReturnType] is the lookup in the local table and
    nothing else. *)
Theorem GetReturnType_local_only (e : GoTypeInferenceEngine) (fqn : string) :
  Registry e = None
  \/ (exists reg, Registry e = Some reg /\ StdlibLoader reg = None)
  \/ ~ In "."%char (list_ascii_of_string fqn) ->
  GetReturnType e fqn = ReturnTypes e !! fqn.
Proof.
  intros H. unfold GetReturnType.
  destruct (ReturnTypes e !! fqn) as [t|]; [reflexivity|].
  destruct H as [->|[(reg & -> & ->)|H]]; [reflexivity | reflexivity|].
  destruct (Registry e) as [reg|]; [|reflexivity].
  destruct (StdlibLoader reg) as [loader|]; [|reflexivity].
  cbv zeta. rewrite LastIndex_dot_none; [reflexivity|].
  destruct (Contains fqn ".") eqn:E; [|reflexivity].
  exfalso. apply H. now apply Contains_dot_In.
Qed.

Lemma GetReturnType_local_only_witness :
  GetReturnType (NewGoTypeInferenceEngine (Some (projRegistry (Some httpLoader)))) "Get"
  = None
  /\ GetReturnType s4Start "main.GetUser" = Some userType.
Proof.
  split.
  - rewrite (GetReturnType_local_only _ "Get"); [reflexivity|].
    right. right. vm_compute. intuition discriminate.
  - rewrite (GetReturnType_local_only s4Start "main.GetUser"); [reflexivity|].
    right. left. exists (projRegistry None). now split.
Defined.

(** X6: an answer of [GetReturnType] that does not come from the local table
    carries source ["stdlib"], confidence 1.0 and a type FQN that is not empty
    and holds a ['.']. *)
Theorem GetReturnType_stdlib_answer (e : GoTypeInferenceEngine) (fqn : string)
    (t : TypeInfo) :
  ReturnTypes e !! fqn = None ->
  GetReturnType e fqn = Some t ->
  Source t = "stdlib" /\ Confidence t = 1%Q /\ TypeFQN t <> ""
  /\ In "."%char (list_ascii_of_string (TypeFQN t)).
Proof.
  intros Hmiss H.
  assert (Hs : exists ip returns, firstStdlibReturn returns ip = Some t).
  { unfold GetReturnType in H. rewrite Hmiss in H.
    destruct (Registry e) as [reg|]; [|discriminate].
    destruct (StdlibLoader reg) as [loader|]; [|discriminate].
    cbv zeta in H. destruct (LastIndex fqn "." <=? 0)%Z; [discriminate|].
    destruct (negb (ValidateStdlibImport loader _)); [discriminate|].
    destruct (GetFunction loader _ _) as [f|]; [|discriminate]. eauto. }
  destruct Hs as (ip & returns & Hs).
  apply firstStdlibReturn_Some in Hs as (skipped & ret & rest & _ & _ & Hu & ->).
  cbn [Source Confidence TypeFQN].
  destruct Hu as (_ & _ & Hne).
  split; [reflexivity|]. split; [reflexivity|]. split; [exact Hne|].
  apply Contains_dot_In.
  destruct (normalize_output (RetType ret) ip) as [E|E]; [contradiction | exact E].
Qed.

Lemma GetReturnType_stdlib_answer_witness :
  Source (mkTypeInfo "net/http.Response" 1 "stdlib") = "stdlib"
  /\ Confidence (mkTypeInfo "net/http.Response" 1 "stdlib") = 1%Q
  /\ TypeFQN (mkTypeInfo "net/http.Response" 1 "stdlib") <> ""
  /\ In "."%char (list_ascii_of_string (TypeFQN (mkTypeInfo "net/http.Response" 1 "stdlib"))).
Proof.
  apply (GetReturnType_stdlib_answer
           (NewGoTypeInferenceEngine (Some (projRegistry (Some httpLoader))))
           "net/http.Get"); vm_compute; reflexivity.
Defined.

(** ** The normalizers, once more *)

Lemma TrimPrefix_eq_iff s p r :
  TrimPrefix s p = r <->
  (HasPrefix s p = true /\ s = p ++ r) \/ (HasPrefix s p = false /\ s = r).
Proof.
  unfold TrimPrefix. destruct (HasPrefix s p) eqn:H.
  - apply HasPrefix_spec in H as [q ->]. rewrite drop_app_length. split.
    + intros ->. now left.
    + intros [[_ E]|[E _]]; [|discriminate].
      assert (Hq : drop (String.length p) (p ++ q) = drop (String.length p) (p ++ r))
        by now rewrite E.
      now rewrite !drop_app_length in Hq.
  - split; [intros ->; now right | intros [[E _]|[_ E]]; [discriminate | exact E]].
Qed.

Lemma TrimPrefix_empty_iff s p : TrimPrefix s p = "" <-> s = "" \/ s = p.
Proof.
  split.
  - intros H. apply TrimPrefix_eq_iff in H as [[_ H]|[_ H]]; [|now left].
    right. now rewrite append_nil_r in H.
  - intros [->| ->].
    + unfold TrimPrefix. destruct (HasPrefix "" p); [|reflexivity]. now destruct p.
    + rewrite <- (append_nil_r p) at 1. apply TrimPrefix_app.
Qed.

Lemma normalize_empty_iff raw ip :
  stdlibNormalizeType raw ip = "" <-> TrimPrefix (TrimPrefix raw "*") "[]" = "".
Proof.
  unfold stdlibNormalizeType.
  set (t := TrimPrefix (TrimPrefix raw "*") "[]").
  destruct (String.eqb_spec t "") as [E|E]; [tauto|].
  destruct (isBuiltinTypeName t); [split; [discriminate | contradiction]|].
  destruct (Contains t "."); [tauto|].
  split; [|contradiction]. intros H.
  assert (Hl : String.length (ip ++ "." ++ t) = 0) by now rewrite H.
  rewrite !length_append in Hl. simpl in Hl. lia.
Qed.

(** X7: either normalizer answers the empty string for exactly four raw types:
    the empty one and the bare qualifiers ["*"], ["[]"] and ["*[]"]; every
    other answer holds a ['.']. *)
Theorem normalize_empty_cases (raw ip : string) :
  (stdlibNormalizeType raw ip = ""
   <-> raw = "" \/ raw = "*" \/ raw = "[]" \/ raw = "*[]")
  /\ (normalizeStdlibReturnType raw ip = ""
      <-> raw = "" \/ raw = "*" \/ raw = "[]" \/ raw = "*[]")
  /\ (stdlibNormalizeType raw ip <> "" ->
      In "."%char (list_ascii_of_string (stdlibNormalizeType raw ip))).
Proof.
  assert (H : stdlibNormalizeType raw ip = ""
              <-> raw = "" \/ raw = "*" \/ raw = "[]" \/ raw = "*[]").
  { rewrite normalize_empty_iff, TrimPrefix_empty_iff, TrimPrefix_empty_iff.
    rewrite (TrimPrefix_eq_iff raw "*" "[]"). split.
    - intros [[H|H]|[[_ H]|[_ H]]]; auto.
    - intros [-> | [-> | [-> | ->]]]; auto. }
  split; [exact H|]. split; [exact H|].
  intros Hne. apply Contains_dot_In.
  destruct (normalize_output raw ip) as [E|E]; [contradiction | exact E].
Qed.

(** X8: pointer and slice qualifiers are discarded: a type name that begins
    with neither ["*"] nor ["[]"] normalizes to the same FQN when written
    plain, as a pointer, as a slice, or as a pointer to a slice. *)
Theorem normalize_discards_qualifiers (T ip : string) :
  HasPrefix T "*" = false -> HasPrefix T "[]" = false ->
  stdlibNormalizeType ("*" ++ T) ip = stdlibNormalizeType T ip
  /\ stdlibNormalizeType ("[]" ++ T) ip = stdlibNormalizeType T ip
  /\ stdlibNormalizeType ("*[]" ++ T) ip = stdlibNormalizeType T ip
  /\ normalizeStdlibReturnType ("*" ++ T) ip = normalizeStdlibReturnType T ip.
Proof.
  intros H1 H2.
  assert (E0 : TrimPrefix (TrimPrefix T "*") "[]" = T)
    by now rewrite (TrimPrefix_none _ _ H1), (TrimPrefix_none _ _ H2).
  assert (E1 : TrimPrefix (TrimPrefix ("*" ++ T) "*") "[]" = T)
    by now rewrite TrimPrefix_app, (TrimPrefix_none _ _ H2).
  assert (E2 : TrimPrefix (TrimPrefix ("[]" ++ T) "*") "[]" = T).
  { rewrite (TrimPrefix_none ("[]" ++ T) "*") by reflexivity. apply TrimPrefix_app. }
  assert (E3 : TrimPrefix (TrimPrefix ("*[]" ++ T) "*") "[]" = T).
  { change ("*[]" ++ T) with ("*" ++ "[]" ++ T). rewrite TrimPrefix_app.
    apply TrimPrefix_app. }
  unfold normalizeStdlibReturnType, stdlibNormalizeType.
  now rewrite E0, E1, E2, E3.
Qed.

Lemma normalize_discards_qualifiers_witness :
  stdlibNormalizeType "*Request" "net/http" = stdlibNormalizeType "Request" "net/http"
  /\ stdlibNormalizeType "[]Request" "net/http" = stdlibNormalizeType "Request" "net/http"
  /\ stdlibNormalizeType "*[]Request" "net/http" = stdlibNormalizeType "Request" "net/http"
  /\ normalizeStdlibReturnType "*Request" "net/http"
     = normalizeStdlibReturnType "Request" "net/http".
Proof. apply (normalize_discards_qualifiers "Request" "net/http"); reflexivity. Defined.

(** ** The two stdlib lookups *)

Lemma stdlib_loops_same_type returns ip :
  TypeFQN <$> firstStdlibReturn returns ip = TypeFQN <$> firstRegistryReturn returns ip.
Proof.
  induction returns as [|ret rest IH]; [reflexivity|].
  cbn [firstStdlibReturn firstRegistryReturn].
  change (normalizeStdlibReturnType (RetType ret) ip)
    with (stdlibNormalizeType (RetType ret) ip).
  destruct ((RetType ret =? "") || (RetType ret =? "error")); [exact IH|].
  destruct (stdlibNormalizeType (RetType ret) ip =? ""); [exact IH | reflexivity].
Qed.

(** X9: for a function the local table does not know, under a non-empty
    import path, the stdlib fallback of [GetReturnType] and
    [inferTypeFromStdlibFunction] answer for the same functions and with the
    same type FQN; they differ only in the source and confidence they tag. *)
Theorem stdlib_lookups_same_type (e : GoTypeInferenceEngine) (reg : GoModuleRegistry)
    (ip fn : string) :
  ReturnTypes e !! (ip ++ "." ++ fn) = None ->
  Registry e = Some reg ->
  ip <> "" ->
  ~ In "."%char (list_ascii_of_string fn) ->
  TypeFQN <$> GetReturnType e (ip ++ "." ++ fn)
  = TypeFQN <$> inferTypeFromStdlibFunction ip fn reg.
Proof.
  intros Hmiss HR Hip Hfn.
  assert (Hfn' : Contains fn "." = false).
  { destruct (Contains fn ".") eqn:E; [|reflexivity].
    exfalso. apply Hfn. now apply Contains_dot_In. }
  unfold inferTypeFromStdlibFunction.
  destruct (StdlibLoader reg) as [loader|] eqn:ES.
  - rewrite (GetReturnType_miss e reg loader ip fn Hmiss HR ES Hfn').
    destruct (String.eqb_spec ip "") as [|_]; [contradiction|].
    destruct (ValidateStdlibImport loader ip); [|reflexivity]. cbn [negb].
    destruct (GetFunction loader ip fn) as [f|]; [|reflexivity].
    rewrite stdlib_loops_same_type. now destruct (Returns f).
  - unfold GetReturnType. now rewrite Hmiss, HR, ES.
Qed.

Lemma stdlib_lookups_same_type_witness :
  TypeFQN <$> GetReturnType
                (NewGoTypeInferenceEngine (Some (projRegistry (Some httpLoader))))
                ("net/http" ++ "." ++ "Get")
  = TypeFQN <$> inferTypeFromStdlibFunction "net/http" "Get"
                  (projRegistry (Some httpLoader)).
Proof.
  apply stdlib_lookups_same_type; try reflexivity; vm_compute; intuition discriminate.
Defined.

(** X10: every answer of [inferTypeFromStdlibFunction] carries source
    ["stdlib_registry"], confidence 0.9 and a non-empty type FQN; without a
    loader there is no answer. *)
Theorem inferTypeFromStdlibFunction_answer (ip fn : string) (reg : GoModuleRegistry) :
  (StdlibLoader reg = None -> inferTypeFromStdlibFunction ip fn reg = None)
  /\ (forall t, inferTypeFromStdlibFunction ip fn reg = Some t ->
      Source t = "stdlib_registry" /\ Confidence t = (9 # 10)%Q /\ TypeFQN t <> ""
      /\ exists loader, StdlibLoader reg = Some loader
                        /\ ValidateStdlibImport loader ip = true).
Proof.
  unfold inferTypeFromStdlibFunction. split; [now intros ->|].
  intros t. destruct (StdlibLoader reg) as [loader|]; [|discriminate].
  destruct (ValidateStdlibImport loader ip) eqn:EV; [|discriminate]. cbn [negb].
  destruct (GetFunction loader ip fn) as [f|]; [|discriminate].
  assert (H : forall returns, firstRegistryReturn returns ip = Some t ->
              Source t = "stdlib_registry" /\ Confidence t = (9 # 10)%Q /\ TypeFQN t <> "").
  { induction returns as [|ret rest IH]; [discriminate|]. cbn [firstRegistryReturn].
    destruct ((RetType ret =? "") || (RetType ret =? "error")); [exact IH|].
    destruct (String.eqb_spec (normalizeStdlibReturnType (RetType ret) ip) "") as [|Hne];
      [exact IH|].
    intros [= <-]. now repeat split. }
  destruct (Returns f) as [|r rs]; [discriminate|].
  intros Ht. destruct (H _ Ht) as (H1 & H2 & H3).
  repeat split; try assumption. now exists loader.
Qed.

Lemma inferTypeFromStdlibFunction_answer_witness :
  inferTypeFromStdlibFunction "fmt" "Sprintf" (projRegistry None) = None
  /\ Source (mkTypeInfo "net/http.Response" (9 # 10) "stdlib_registry") = "stdlib_registry".
Proof.
  split.
  - now apply (proj1 (inferTypeFromStdlibFunction_answer "fmt" "Sprintf" (projRegistry None))).
  - now apply (proj2 (inferTypeFromStdlibFunction_answer "net/http" "Get"
                        (projRegistry (Some httpLoader)))
                     (mkTypeInfo "net/http.Response" (9 # 10) "stdlib_registry")).
Defined.

(** ** What a run of Pass 2b can do to the engine *)

(** A relation between the engine before and after that is reflexive,
    transitive and holds across every single added binding holds across a
    whole run. *)
Section Pass2bSteps.
Context (host : Host) (fp : string) (reg : GoModuleRegistry) (im : option GoImportMap).
Context (R : GoTypeInferenceEngine -> GoTypeInferenceEngine -> Prop).
Hypothesis R_refl : forall e, R e e.
Hypothesis R_trans : forall e1 e2 e3, R e1 e2 -> R e2 e3 -> R e1 e3.
Hypothesis R_bind :
  forall e fqn v ti, R e (bindInScope e fqn (newBinding v ti fp)).

Lemma steps_shortVar rhs fqn vs : forall e,
  R e (fold_left (shortVarStep host rhs fp fqn reg im) vs e).
Proof using R_refl R_trans R_bind.
  induction vs as [|v vs IH]; intros e; [apply R_refl|].
  cbn [fold_left]. eapply R_trans; [|apply IH].
  unfold shortVarStep. destruct (Name v =? "_"); [apply R_refl|].
  destruct (inferTypeFromRHS host rhs fp fqn e reg im); [apply R_bind | apply R_refl].
Qed.

Lemma steps_assignment rhs fqn vs : forall e,
  R e (fold_left (assignmentStep host rhs fp fqn reg im) vs e).
Proof using R_refl R_trans R_bind.
  induction vs as [|v vs IH]; intros e; [apply R_refl|].
  cbn [fold_left]. eapply R_trans; [|apply IH].
  unfold assignmentStep.
  destruct (inferTypeFromRHS host rhs fp fqn e reg im); [apply R_bind | apply R_refl].
Qed.

Lemma steps_visit node fqn e : R e (visitNode host node fp fqn reg im e).
Proof using R_refl R_trans R_bind.
  unfold visitNode, processShortVarDeclaration, processAssignmentStatement.
  destruct (NodeType node =? "short_var_declaration").
  - destruct (negb (fqn =? "")); [|apply R_refl].
    destruct (ParseShortVarDeclaration host node); [apply R_refl|].
    destruct (ChildByFieldName node "right"); [apply steps_shortVar | apply R_refl].
  - destruct (NodeType node =? "assignment_statement"); [|apply R_refl].
    destruct (negb (fqn =? "")); [|apply R_refl].
    destruct (ParseAssignment host node); [apply R_refl|].
    destruct (ChildByFieldName node "right"); [apply steps_assignment | apply R_refl].
Qed.

Lemma steps_traverse pkg n : forall fqn e,
  R e (traverseForVariableAssignments host n fp pkg fqn reg im e).
Proof using R_refl R_trans R_bind.
  induction n as [t c r kids IH] using Node_induction. intros fqn e.
  cbn [traverseForVariableAssignments].
  set (fqn1 := functionContext (MkNode t c r kids) pkg fqn).
  set (e1 := visitNode host (MkNode t c r kids) fp fqn1 reg im e).
  assert (H1 : R e e1) by apply steps_visit.
  apply (R_trans _ _ _ H1). clear H1. clearbody e1 fqn1. revert fqn1 e1.
  induction IH as [|[f nm ch] ks Hch _ IHks]; intros fqn1 e1; simpl; [apply R_refl|].
  destruct nm; [|apply IHks].
  eapply R_trans; [apply (Hch fqn1 e1) | apply IHks].
Qed.

Lemma steps_extract src e :
  R e (fst (ExtractGoVariableAssignments host fp src e reg im)).
Proof using R_refl R_trans R_bind.
  unfold ExtractGoVariableAssignments.
  destruct (ParseCtx host src); [|apply R_refl]. cbv zeta.
  destruct (DirToImport reg !! registryDir host fp); [|apply R_refl].
  apply steps_traverse.
Qed.

End Pass2bSteps.

(** X11: Pass 2b reads the table of return types and never writes it: after
    [ExtractGoVariableAssignments] the return types and the registry of the
    engine are what they were, so [GetReturnType] answers as before. *)
Theorem pass2b_keeps_return_types (host : Host) (fp src : string)
    (e : GoTypeInferenceEngine) (reg : GoModuleRegistry) (im : option GoImportMap) :
  ReturnTypes (fst (ExtractGoVariableAssignments host fp src e reg im)) = ReturnTypes e
  /\ Registry (fst (ExtractGoVariableAssignments host fp src e reg im)) = Registry e
  /\ (forall fqn,
      GetReturnType (fst (ExtractGoVariableAssignments host fp src e reg im)) fqn
      = GetReturnType e fqn).
Proof.
  assert (H : ReturnTypes (fst (ExtractGoVariableAssignments host fp src e reg im))
              = ReturnTypes e
              /\ Registry (fst (ExtractGoVariableAssignments host fp src e reg im))
                 = Registry e).
  { apply (steps_extract host fp reg im
             (fun e1 e2 => ReturnTypes e2 = ReturnTypes e1 /\ Registry e2 = Registry e1)).
    - now split.
    - intros e1 e2 e3 [H1 H2] [H3 H4]. split; congruence.
    - intros e1 fqn v ti. unfold bindInScope.
      destruct (GetScope e1 fqn); now split. }
  destruct H as [H1 H2]. split; [exact H1|]. split; [exact H2|].
  intros fqn. unfold GetReturnType. now rewrite H1, H2.
Qed.

(** X12: Pass 2b only appends: after a run over the file [fp], the history of
    every name in every scope is its old history followed by new bindings,
    each of which carries that name and the file [fp] as its location. *)
Theorem pass2b_appends (host : Host) (fp src : string)
    (e : GoTypeInferenceEngine) (reg : GoModuleRegistry) (im : option GoImportMap)
    (fqn name : string) :
  exists added,
    bindingsOf (fst (ExtractGoVariableAssignments host fp src e reg im)) fqn name
    = (bindingsOf e fqn name ++ added)%list
    /\ Forall (fun b => VarName b = name /\ File (Loc b) = fp) added.
Proof.
  apply (steps_extract host fp reg im
           (fun e1 e2 => forall fqn name, exists added,
              bindingsOf e2 fqn name = (bindingsOf e1 fqn name ++ added)%list
              /\ Forall (fun b => VarName b = name /\ File (Loc b) = fp) added)).
  - intros e1 f n. exists []. split; [now rewrite app_nil_r | constructor].
  - intros e1 e2 e3 H12 H23 f n.
    destruct (H12 f n) as (a1 & E1 & F1). destruct (H23 f n) as (a2 & E2 & F2).
    exists (a1 ++ a2)%list. split; [now rewrite E2, E1, app_assoc|].
    apply Forall_app. now split.
  - intros e1 f v ti f' n. rewrite bindingsOf_bindInScope. case_decide as Hd.
    + exists [newBinding v ti fp]. split; [reflexivity|].
      constructor; [|constructor]. destruct Hd as [_ Hn]. now split.
    + exists []. split; [now rewrite app_nil_r | constructor].
Qed.

(** X13: Pass 2b never drops a scope, and every scope it creates is filed
    under its own FQN: if all scopes of the engine are filed under their own
    FQN before the run, they are after it. *)
Theorem pass2b_keeps_scopes (host : Host) (fp src : string)
    (e : GoTypeInferenceEngine) (reg : GoModuleRegistry) (im : option GoImportMap) :
  (forall fqn, HasScope e fqn = true ->
     HasScope (fst (ExtractGoVariableAssignments host fp src e reg im)) fqn = true)
  /\ (keyedByOwnFQN e ->
      keyedByOwnFQN (fst (ExtractGoVariableAssignments host fp src e reg im))).
Proof.
  apply (steps_extract host fp reg im
           (fun e1 e2 => (forall fqn, HasScope e1 fqn = true -> HasScope e2 fqn = true)
                         /\ (keyedByOwnFQN e1 -> keyedByOwnFQN e2))).
  - intros e1. now split.
  - intros e1 e2 e3 [H1 H2] [H3 H4]. split; auto.
  - intros e1 fqn v ti. unfold bindInScope, HasScope, keyedByOwnFQN, GetScope.
    destruct (Scopes e1 !! fqn) as [scope|] eqn:E; cbn [Scopes AddScope]; split.
    + intros f Hf. destruct (decide (fqn = f)) as [<-|Hne].
      * now rewrite lookup_insert_eq.
      * now rewrite lookup_insert_ne.
    + intros Hk key sc. destruct (decide (fqn = key)) as [<-|Hne].
      * rewrite lookup_insert_eq. intros [= <-]. cbn [FunctionFQN AddVariable].
        now apply Hk.
      * rewrite lookup_insert_ne by exact Hne. apply Hk.
    + intros f Hf. destruct (decide (fqn = f)) as [<-|Hne].
      * now rewrite lookup_insert_eq.
      * now rewrite !lookup_insert_ne.
    + intros Hk key sc. cbn [FunctionFQN NewGoFunctionScope].
      destruct (decide (fqn = key)) as [<-|Hne].
      * rewrite lookup_insert_eq. now intros [= <-].
      * rewrite !lookup_insert_ne by exact Hne. apply Hk.
Qed.

Lemma pass2b_keeps_scopes_witness :
  HasScope initEngine "main.init" = true /\ keyedByOwnFQN s4Engine.
Proof.
  split.
  - apply (proj1 (pass2b_keeps_scopes initHost "/proj/b.go" "b"
                    (fst (ExtractGoVariableAssignments initHost "/proj/a.go" "a"
                            (NewGoTypeInferenceEngine (Some (projRegistry None)))
                            (projRegistry None) None))
                    (projRegistry None) None)).
    vm_compute. reflexivity.
  - apply (proj2 (pass2b_keeps_scopes s4Host "/proj/main.go" "s4" s4Start
                    (projRegistry None) None)).
    intros key scope H. vm_compute in H. discriminate H.
Defined.

(** X14: assignments outside every function are never bound: a traversal that
    starts with no function context over a tree without function or method
    declarations returns the engine unchanged, and so does
    [ExtractGoVariableAssignments] on such a file. *)
Theorem package_level_assignments_unbound (host : Host) (fp src : string)
    (e : GoTypeInferenceEngine) (reg : GoModuleRegistry) (im : option GoImportMap)
    (root : Node) :
  ParseCtx host src = inl root ->
  noFunctionDecl root = true ->
  ExtractGoVariableAssignments host fp src e reg im = (e, None).
Proof.
  intros HP Hno. unfold ExtractGoVariableAssignments. rewrite HP. cbv zeta.
  destruct (DirToImport reg !! registryDir host fp) as [pkg|]; [|reflexivity].
  f_equal. clear HP. revert e Hno.
  induction root as [t c r kids IH] using Node_induction. intros e.
  cbn [noFunctionDecl traverseForVariableAssignments].
  rewrite !andb_true_iff, !negb_true_iff. intros [[Hf Hm] Hkids].
  assert (Hctx : functionContext (MkNode t c r kids) pkg "" = "").
  { unfold functionContext. cbn [NodeType]. now rewrite Hf, Hm. }
  rewrite Hctx. unfold visitNode. cbn [negb String.eqb].
  assert (Hv : (if NodeType (MkNode t c r kids) =? "short_var_declaration" then e
                else if NodeType (MkNode t c r kids) =? "assignment_statement"
                     then e else e) = e)
    by now repeat destruct (_ =? _).
  rewrite Hv. clear Hv Hctx Hf Hm. revert e Hkids.
  assert (Hfalse : forall ks, forNamed (fun c ok => ok && noFunctionDecl c) ks false = false).
  { induction ks as [|[f nm ch] ks IHks]; [reflexivity|]. simpl. now destruct nm. }
  induction IH as [|[f nm ch] ks Hch _ IHks]; intros e; cbn [forNamed];
    [reflexivity|].
  destruct nm; [|apply IHks]. cbn [andb Child] in *.
  destruct (noFunctionDecl ch) eqn:Ech; [|now rewrite Hfalse].
  intros Hks. rewrite (Hch e eq_refl). now apply IHks.
Qed.

(** At [var f = func() { x := 1 }] the short variable declaration is visited
    with no function context and is not bound. *)
Lemma package_level_assignments_unbound_witness :
  ExtractGoVariableAssignments (scenarioHost [("pkg", packageLevelTree)])
    "/proj/main.go" "pkg" s4Start (projRegistry None) None
  = (s4Start, None).
Proof.
  apply (package_level_assignments_unbound _ _ _ _ _ _ packageLevelTree); reflexivity.
Defined.

(** X15: a method declared on a pointer receiver and one declared on the value
    receiver open the same function context,
    [<package>.<ReceiverType>.<Method>]: the leading ['*'] of the receiver
    type is dropped. *)
Theorem receiver_pointer_stripped (T name pkg current : string) (row : nat) :
  T <> "" -> HasPrefix T "*" = false ->
  functionContext (methodDecl ("*" ++ T) name row) pkg current
  = pkg ++ "." ++ T ++ "." ++ name
  /\ functionContext (methodDecl T name row) pkg current
     = pkg ++ "." ++ T ++ "." ++ name.
Proof.
  intros Hne Hp.
  assert (H : forall R, functionContext (methodDecl R name row) pkg current
                        = if negb (TrimPrefix R "*" =? "")
                          then pkg ++ "." ++ TrimPrefix R "*" ++ "." ++ name
                          else current) by reflexivity.
  rewrite !H, TrimPrefix_app, (TrimPrefix_none _ _ Hp).
  apply String.eqb_neq in Hne. rewrite Hne. now split.
Qed.

Lemma receiver_pointer_stripped_witness :
  functionContext (methodDecl ("*" ++ "User") "Save" 3) "main" ""
  = "main" ++ "." ++ "User" ++ "." ++ "Save"
  /\ functionContext (methodDecl "User" "Save" 3) "main" ""
     = "main" ++ "." ++ "User" ++ "." ++ "Save".
Proof. apply receiver_pointer_stripped; [discriminate | reflexivity]. Defined.

(** ** Types read back from the scope *)

(** What [inferTypeFromVariable] reads: the type of the latest binding. *)
Lemma inferTypeFromVariable_latest name fqn e :
  inferTypeFromVariable name fqn e = Type_ <$> last (bindingsOf e fqn name).
Proof.
  unfold inferTypeFromVariable, bindingsOf, GetAllBindings, slot.
  destruct (GetScope e fqn) as [scope|]; [|reflexivity].
  now destruct (Variables scope !! name).
Qed.

(** X16: a binding made in a function is what a later reference to the
    variable in that function reads: after [bindInScope],
    [inferTypeFromVariable] answers the bound type for that name, and what it
    answered before for every other name and every other function. *)
Theorem bound_type_read_back (e : GoTypeInferenceEngine) (fqn : string)
    (b : GoVariableBinding) :
  inferTypeFromVariable (VarName b) fqn (bindInScope e fqn b) = Some (Type_ b)
  /\ (forall fqn' name, fqn' <> fqn \/ name <> VarName b ->
      inferTypeFromVariable name fqn' (bindInScope e fqn b)
      = inferTypeFromVariable name fqn' e).
Proof.
  split.
  - rewrite inferTypeFromVariable_latest, bindingsOf_bindInScope.
    rewrite decide_True by auto. now rewrite last_snoc.
  - intros fqn' name H. rewrite !inferTypeFromVariable_latest, bindingsOf_bindInScope.
    rewrite decide_False; [reflexivity|]. intros [E1 E2]. destruct H; congruence.
Qed.

(** The engine is read by [inferTypeFromRHS] through its return types, its
    registry and the latest bindings of the function only; binding a name to
    the type the right-hand side already has does not change that type. *)
Lemma inferTypeFromRHS_stable (host : Host) (fp fqn : string) (reg : GoModuleRegistry)
    (im : option GoImportMap) (ti : TypeInfo) (b : GoVariableBinding) :
  Type_ b = ti ->
  forall rhs e,
    inferTypeFromRHS host rhs fp fqn e reg im = Some ti ->
    inferTypeFromRHS host rhs fp fqn (bindInScope e fqn b) reg im = Some ti.
Proof.
  intros Hb rhs. induction rhs as [t c r kids IH] using Node_induction. intros e.
  assert (HG : forall f, GetReturnType (bindInScope e fqn b) f = GetReturnType e f).
  { intros f. unfold GetReturnType, bindInScope. now destruct (GetScope e fqn). }
  cbn [inferTypeFromRHS].
  repeat (destruct (_ || _) ; [exact (fun H => H)|]).
  repeat match goal with
         | |- context [if ?t =? ?s then _ else _] =>
             lazymatch s with
             | "call_expression" => fail
             | _ => destruct (t =? s); [exact (fun H => H)|]
             end
         end.
  destruct (t =? "call_expression").
  { unfold inferTypeFromFunctionCall.
    destruct (ChildByFieldName _ "function"); [|exact (fun H => H)].
    destruct (_ =? ""); [exact (fun H => H)|]. cbv zeta. now rewrite HG. }
  destruct (t =? "identifier").
  { rewrite !inferTypeFromVariable_latest, bindingsOf_bindInScope.
    case_decide as Hd; [|exact (fun H => H)].
    intros _. rewrite last_snoc. cbn. now rewrite Hb. }
  destruct (t =? "composite_literal"); [exact (fun H => H)|].
  destruct (t =? "unary_expression").
  { destruct (ChildByFieldName _ "operator") as [op|]; [|exact (fun H => H)].
    induction IH as [|[f nm ch] ks Hch _ IHks]; [exact (fun H => H)|].
    cbn [onField]. destruct (isField "operand" f); [|exact IHks].
    destruct (Content op =? "&"); [apply Hch | exact (fun H => H)]. }
  destruct (t =? "expression_list"); [|exact (fun H => H)].
  induction IH as [|[f nm ch] ks Hch _ IHks]; [exact (fun H => H)|].
  cbn [onFirstNamed]. destruct nm; [apply Hch | exact IHks].
Qed.

(** ** Short variable declarations *)

(** X17: a short variable declaration whose right-hand side has the type
    [ti] binds every name its parse helper reports, except [_], once per
    report and in order, each to [ti]: when both names of [a, b := f()] are
    reported, both get the first return type of [f].  Nothing else is added
    to any scope. *)
Theorem short_var_binds_every_name (host : Host) (node rhs : Node) (fp fqn : string)
    (e : GoTypeInferenceEngine) (reg : GoModuleRegistry) (im : option GoImportMap)
    (ti : TypeInfo) :
  ChildByFieldName node "right" = Some rhs ->
  inferTypeFromRHS host rhs fp fqn e reg im = Some ti ->
  forall fqn' name,
    bindingsOf (processShortVarDeclaration host node fp fqn e reg im) fqn' name
    = (bindingsOf e fqn' name
       ++ (if decide (fqn = fqn' /\ name <> "_")
           then map (fun v => newBinding v ti fp)
                    (filter (fun v => Name v = name) (ParseShortVarDeclaration host node))
           else []))%list.
Proof.
  intros HR HI fqn' name. unfold processShortVarDeclaration. rewrite HR.
  assert (H : forall vs e0,
             inferTypeFromRHS host rhs fp fqn e0 reg im = Some ti ->
             bindingsOf (fold_left (shortVarStep host rhs fp fqn reg im) vs e0) fqn' name
             = (bindingsOf e0 fqn' name
                ++ (if decide (fqn = fqn' /\ name <> "_")
                    then map (fun v => newBinding v ti fp)
                             (filter (fun v => Name v = name) vs)
                    else []))%list).
  { clear e HI. induction vs as [|v vs IH]; intros e0 HI.
    - cbn. case_decide; now rewrite app_nil_r.
    - cbn [fold_left]. unfold shortVarStep at 2.
      destruct (String.eqb_spec (Name v) "_") as [Hblank|Hblank].
      + rewrite (IH _ HI). f_equal. case_decide as Hd; [|reflexivity].
        rewrite filter_cons_False; [reflexivity|]. destruct Hd. congruence.
      + rewrite HI. rewrite IH by now apply inferTypeFromRHS_stable.
        rewrite bindingsOf_bindInScope. cbn [VarName newBinding].
        destruct (decide (Name v = name)) as [Hn|Hn].
        * rewrite filter_cons_True by exact Hn.
          destruct (decide (fqn = fqn')) as [Hf|Hf].
          -- rewrite !decide_True by (split; congruence).
             cbn [map]. now rewrite <- app_assoc.
          -- rewrite !decide_False by tauto. reflexivity.
        * rewrite filter_cons_False by exact Hn.
          rewrite (decide_False (P := fqn = fqn' /\ Name v = name)) by tauto.
          reflexivity. }
  destruct (ParseShortVarDeclaration host node) as [|v vs] eqn:EV.
  - cbn. case_decide; now rewrite app_nil_r.
  - now apply H.
Qed.

Lemma short_var_binds_every_name_witness :
  map (fun b => (VarName b, TypeFQN (Type_ b), lineOf b))
      (bindingsOf (processShortVarDeclaration s4Host pairNode "/proj/main.go" "main.main"
                     (AddReturnType s4Start "main.Pair" userType)
                     (projRegistry None) None) "main.main" "b")
  = [ ("b", "pkg.User", 3) ].
Proof.
  rewrite (short_var_binds_every_name s4Host pairNode
             (MkNode "expression_list" (Content (plainCall "Pair" "" 2)) 2
                     [ sub (plainCall "Pair" "" 2) ])
             "/proj/main.go" "main.main" (AddReturnType s4Start "main.Pair" userType)
             (projRegistry None) None userType eq_refl eq_refl).
  reflexivity.
Defined.

(** ** Calls *)

(** X18: a method call on anything that is not an import alias is typed as
    the plain call of the same name: [obj.Save()] gets the return type
    registered for [Save] in the package of the file, whatever [obj] is. *)
Theorem method_call_typed_as_plain_call (host : Host) (obj method arg arg' : string)
    (row row' : nat) (fp : string) (e : GoTypeInferenceEngine) (reg : GoModuleRegistry)
    (im : option GoImportMap) :
  (forall m, im = Some m -> Imports m !! obj = None) ->
  inferTypeFromFunctionCall host (selectorCall obj method arg row) fp e reg im
  = inferTypeFromFunctionCall host (plainCall method arg' row') fp e reg im.
Proof.
  intros Him.
  assert (Hs : extractGoFunctionName
                 (MkNode "selector_expression" (obj ++ "." ++ method) row
                    [ fld "operand" (ident obj row); tok "." row;
                      fld "field" (leaf "field_identifier" method row) ]) im = method).
  { unfold extractGoFunctionName. cbn. destruct im as [m|]; [|reflexivity].
    now rewrite (Him m eq_refl). }
  unfold inferTypeFromFunctionCall, selectorCall, plainCall.
  cbn [ChildByFieldName Kids onField fld isField String.eqb Ascii.eqb Bool.eqb].
  rewrite Hs. reflexivity.
Qed.

Lemma method_call_typed_as_plain_call_witness :
  inferTypeFromFunctionCall s4Host (selectorCall "repo" "GetUser" "id" 7) "/proj/main.go"
    s4Start (projRegistry None) s1Imports
  = inferTypeFromFunctionCall s4Host (plainCall "GetUser" "1" 9) "/proj/main.go"
      s4Start (projRegistry None) s1Imports.
Proof.
  apply method_call_typed_as_plain_call. intros m [= <-]. reflexivity.
Defined.

(** Whatever [GetReturnType] answers is a registered entry or carries the
    tag of its stdlib lookup. *)
Lemma GetReturnType_origin e fqn t :
  GetReturnType e fqn = Some t ->
  ReturnTypes e !! fqn = Some t \/ (Source t = "stdlib" /\ Confidence t = 1%Q).
Proof.
  unfold GetReturnType. destruct (ReturnTypes e !! fqn) as [t'|]; [now left|].
  destruct (Registry e) as [reg|]; [|discriminate].
  destruct (StdlibLoader reg) as [loader|]; [|discriminate]. cbv zeta.
  destruct (_ <=? 0)%Z; [discriminate|].
  destruct (negb _); [discriminate|].
  destruct (GetFunction loader _ _) as [fn|]; [|discriminate].
  generalize (take (Z.to_nat (LastIndex fqn ".")) fqn). intros ip.
  induction (Returns fn) as [|ret rest IH]; [discriminate|].
  cbn [firstStdlibReturn]. destruct (_ || _); [exact IH|]. cbv zeta.
  destruct (_ =? ""); [exact IH|]. intros [= <-]. right. now split.
Qed.

(** X19: with the engine built on the registry that Pass 2b is given, a call
    is never typed by the registry lookup of [inferTypeFromFunctionCall]: every
    type it returns is either an entry of the engine's return types or the
    answer of [GetReturnType]'s own stdlib lookup, tagged ["stdlib"] with
    confidence 1.0, never ["stdlib_registry"] with 0.9. *)
Theorem call_type_never_from_registry_lookup (host : Host) (callNode : Node)
    (fp : string) (e : GoTypeInferenceEngine) (reg : GoModuleRegistry)
    (im : option GoImportMap) (t : TypeInfo) :
  Registry e = Some reg ->
  inferTypeFromFunctionCall host callNode fp e reg im = Some t ->
  (exists fqn, ReturnTypes e !! fqn = Some t)
  \/ (Source t = "stdlib" /\ Confidence t = 1%Q).
Proof.
  intros HR HI. pose proof (stdlib_registry_unreachable host _ _ _ _ _ _ HR HI) as HG.
  apply GetReturnType_origin in HG as [HG|HG]; [left; eauto | now right].
Qed.

Lemma call_type_never_from_registry_lookup_witness :
  (exists fqn,
     ReturnTypes (NewGoTypeInferenceEngine (Some (projRegistry (Some httpLoader)))) !! fqn
     = Some (mkTypeInfo "net/http.Response" 1 "stdlib"))
  \/ (Source (mkTypeInfo "net/http.Response" 1 "stdlib") = "stdlib"
      /\ Confidence (mkTypeInfo "net/http.Response" 1 "stdlib") = 1%Q).
Proof.
  apply (call_type_never_from_registry_lookup (scenarioHost [])
           (selectorCall "http" "Get" "url" 5) "/proj/main.go"
           (NewGoTypeInferenceEngine (Some (projRegistry (Some httpLoader))))
           (projRegistry (Some httpLoader)) s1Imports);
    reflexivity.
Defined.

(** ** Imports of a file ([go_imports.go]) *)

Lemma HasPrefix_byte_cons x s c : HasPrefix (String x s) (String c "") = Ascii.eqb c x.
Proof. now rewrite HasPrefix_cons, HasPrefix_nil_r, andb_true_r. Qed.

Lemma Contains_byte_cons x s c :
  Contains (String x s) (String c "") = Ascii.eqb c x || Contains s (String c "").
Proof. cbn [Contains]. rewrite HasPrefix_byte_cons. now destruct (Ascii.eqb c x). Qed.

Lemma LastIndex_from_no_byte c s : forall i acc,
  Contains s (String c "") = false -> LastIndex_from s (String c "") i acc = acc.
Proof.
  induction s as [|x s IH]; intros i acc H; [reflexivity|].
  rewrite Contains_byte_cons in H. apply orb_false_iff in H as [Hc Hs].
  cbn [LastIndex_from]. rewrite HasPrefix_byte_cons, Hc. now apply IH.
Qed.

Lemma LastIndex_from_last_byte c d r : forall i acc,
  Contains r (String c "") = false ->
  LastIndex_from (d ++ String c r) (String c "") i acc
  = (i + Z.of_nat (String.length d))%Z.
Proof.
  induction d as [|x d IH]; intros i acc H.
  - change ("" ++ String c r) with (String c r).
    cbn [LastIndex_from]. rewrite HasPrefix_byte_cons, Ascii.eqb_refl.
    rewrite LastIndex_from_no_byte by exact H. simpl. lia.
  - change (String x d ++ String c r) with (String x (d ++ String c r)).
    cbn [LastIndex_from]. rewrite IH by exact H. simpl String.length. lia.
Qed.

Lemma split_last_byte c s :
  Contains s (String c "") = true ->
  exists d r, s = d ++ String c r /\ Contains r (String c "") = false.
Proof.
  induction s as [|x s IH]; [discriminate|].
  rewrite Contains_byte_cons. destruct (Contains s (String c "")) eqn:Hs.
  - intros _. destruct (IH eq_refl) as (d & r & -> & Hr).
    now exists (String x d), r.
  - rewrite orb_false_r. intros Hc. apply Ascii.eqb_eq in Hc as <-.
    now exists "", s.
Qed.

(** X20: the default local name of an import is the last segment of its
    path: what follows the last ['/'], the whole path when it has none.  The
    name never holds a ['/']. *)
Theorem extractLocalName_last_segment (p : string) :
  Contains (extractLocalName p) "/" = false
  /\ (if Contains p "/" then exists d, p = d ++ "/" ++ extractLocalName p
      else extractLocalName p = p).
Proof.
  assert (Hsplit : forall d r, Contains r "/" = false ->
                               extractLocalName (d ++ String "/" r) = r).
  { intros d r Hr. unfold extractLocalName, LastIndex.
    rewrite LastIndex_from_last_byte by exact Hr.
    destruct (String.eqb_spec (d ++ String "/" r) "") as [E|_];
      [destruct d; discriminate E|].
    destruct (Z.eqb_spec (0 + Z.of_nat (String.length d)) (-1)) as [E|_]; [lia|].
    replace (Z.to_nat (0 + Z.of_nat (String.length d) + 1))
      with (String.length (d ++ "/")) by (rewrite length_append; simpl; lia).
    change (String "/" r) with ("/" ++ r). rewrite <- append_assoc.
    apply drop_app_length. }
  destruct (Contains p "/") eqn:Hp.
  - destruct (split_last_byte "/" p Hp) as (d & r & -> & Hr).
    rewrite (Hsplit d r Hr). split; [exact Hr | now exists d].
  - assert (E : extractLocalName p = p).
    { unfold extractLocalName, LastIndex. rewrite LastIndex_from_no_byte by exact Hp.
      now destruct (String.eqb_spec p "") as [->|_]. }
    rewrite E. now split.
Qed.

Lemma TrimRightByte_snoc s c : TrimRightByte (s ++ String c "") c = TrimRightByte s c.
Proof.
  induction s as [|x s IH].
  - change ("" ++ String c "") with (String c "").
    cbn [TrimRightByte]. now rewrite Ascii.eqb_refl.
  - change (String x s ++ String c "") with (String x (s ++ String c "")).
    cbn [TrimRightByte]. now rewrite IH.
Qed.

Lemma TrimRightByte_id s c : Contains s (String c "") = false -> TrimRightByte s c = s.
Proof.
  induction s as [|x s IH]; [reflexivity|].
  rewrite Contains_byte_cons. intros H. apply orb_false_iff in H as [Hc Hs].
  cbn [TrimRightByte]. rewrite (IH Hs). rewrite Ascii.eqb_sym in Hc.
  destruct s; [now rewrite Hc | reflexivity].
Qed.

(** The text of a path literal without its quotes. *)
Lemma TrimByte_quoted path c :
  Contains path (String c "") = false ->
  TrimByte (String c (path ++ String c "")) c = path.
Proof.
  intros H. unfold TrimByte. cbn [TrimLeftByte]. rewrite Ascii.eqb_refl.
  destruct path as [|x p].
  - change ("" ++ String c "") with (String c "").
    cbn [TrimLeftByte TrimRightByte]. now rewrite Ascii.eqb_refl.
  - change (String x p ++ String c "") with (String x (p ++ String c "")).
    rewrite Contains_byte_cons in H. apply orb_false_iff in H as [Hc Hs].
    cbn [TrimLeftByte]. rewrite Ascii.eqb_sym in Hc. rewrite Hc.
    change (String x (p ++ String c "")) with (String x p ++ String c "").
    rewrite TrimRightByte_snoc. apply TrimRightByte_id.
    rewrite Contains_byte_cons, Ascii.eqb_sym, Hc. exact Hs.
Qed.

(** X21: an import spec binds its path, without the quotes, to its alias, and
    to the last segment of the path when it has no alias; the binding replaces
    an earlier one of the same name and leaves the package name alone. *)
Theorem processImportSpec_binds (alias path : string) (row : nat) (m : GoImportMap) :
  path <> "" ->
  Contains path (String quoteByte "") = false ->
  Imports (processImportSpec (importSpec alias path row) m)
  = <[ (if alias =? "" then extractLocalName path else alias) := path ]> (Imports m)
  /\ PackageName (processImportSpec (importSpec alias path row) m) = PackageName m.
Proof.
  intros Hne Hq. unfold processImportSpec, importSpec.
  destruct (alias =? "");
    cbn [ChildByFieldName Kids app onField fld isField String.eqb Ascii.eqb Bool.eqb
         Content leaf];
    rewrite (TrimByte_quoted path quoteByte Hq);
    apply String.eqb_neq in Hne; rewrite Hne; now split.
Qed.

Lemma processImportSpec_binds_witness :
  Imports (processImportSpec (importSpec "" "net/http" 3) (NewGoImportMap "/proj/main.go"))
  = <[ (if "" =? "" then extractLocalName "net/http" else "") := "net/http" ]>
      (Imports (NewGoImportMap "/proj/main.go"))
  /\ PackageName (processImportSpec (importSpec "" "net/http" 3)
                    (NewGoImportMap "/proj/main.go"))
     = PackageName (NewGoImportMap "/proj/main.go").
Proof. apply processImportSpec_binds; [discriminate | reflexivity]. Defined.

(** The imports that are bound are bound to a path that is not empty. *)
Lemma processImportSpec_nonempty node m :
  (forall a p, Imports m !! a = Some p -> p <> "") ->
  forall a p, Imports (processImportSpec node m) !! a = Some p -> p <> "".
Proof.
  intros Hm a p. unfold processImportSpec.
  set (path := match ChildByFieldName node "path" with Some _ => _ | None => _ end).
  set (name := match ChildByFieldName node "name" with Some _ => _ | None => _ end).
  destruct (String.eqb_spec path "") as [|Hne]; cbn [negb]; [apply Hm|].
  cbn [AddImport Imports]. destruct (decide (name = a)) as [<-|Hn].
  - rewrite lookup_insert_eq. now intros [= <-].
  - rewrite lookup_insert_ne by exact Hn. apply Hm.
Qed.

Lemma forNamed_invariant {S : Type} (P : S -> Prop) (step : Node -> S -> S) ks :
  (forall c st, P st -> P (step c st)) -> forall st, P st -> P (forNamed step ks st).
Proof.
  intros Hstep. induction ks as [|[f nm c] ks IH]; intros st H; [exact H|].
  cbn [forNamed]. apply IH. destruct nm; [now apply Hstep | exact H].
Qed.

Lemma traverseForGoImports_nonempty node : forall m,
  (forall a p, Imports m !! a = Some p -> p <> "") ->
  forall a p, Imports (traverseForGoImports node m) !! a = Some p -> p <> "".
Proof.
  induction node as [t c r kids IH] using Node_induction. intros m Hm.
  cbn [traverseForGoImports]. destruct (t =? "import_declaration").
  - unfold processGoImportDeclaration.
    apply (forNamed_invariant (fun m => forall a p, Imports m !! a = Some p -> p <> ""));
      [|exact Hm].
    intros ch st Hst. destruct (NodeType ch =? "import_spec");
      [now apply processImportSpec_nonempty|].
    destruct (NodeType ch =? "import_spec_list"); [|exact Hst].
    apply (forNamed_invariant (fun m => forall a p, Imports m !! a = Some p -> p <> ""));
      [|exact Hst].
    intros sp st' Hst'. destruct (NodeType sp =? "import_spec");
      [now apply processImportSpec_nonempty | exact Hst'].
  - revert m Hm. induction IH as [|[f nm ch] ks Hch _ IHks]; intros m Hm; [exact Hm|].
    cbn [forKids]. apply IHks. now apply Hch.
Qed.

(** X22: whatever the file holds, no name of the extracted import map is
    bound to the empty path: an import spec without a path, or with an empty
    one, is dropped.  A file that does not parse gives an error and no map. *)
Theorem ExtractGoImports_paths_nonempty (parse : string -> Node + string)
    (fp src : string) (reg : GoModuleRegistry) :
  match ExtractGoImports parse fp src reg with
  | inl m => (exists root, parse src = inl root)
             /\ forall a p, Imports m !! a = Some p -> p <> ""
  | inr err => exists e, parse src = inr e /\ err = "failed to parse Go file: " ++ e
  end.
Proof.
  unfold ExtractGoImports. destruct (parse src) as [root|e]; [|now exists e].
  split; [now exists root|]. apply traverseForGoImports_nonempty.
  intros a p. unfold extractPackageName, NewGoImportMap.
  destruct (firstNamedOfType "package_clause" _) as [cl|];
    [destruct (firstNamedOfType "package_identifier" _)|];
    cbn [Imports]; now rewrite lookup_empty.
Qed.

(** ** Classifying a list of imports *)

(** X23: [ResolveImports] files every path of the list, and no other, under
    the class [ClassifyImport] gives it alone; order and repetition of the
    list do not matter. *)
Theorem ResolveImports_lookup (r : GoImportResolver) (imports : list string) (p : string) :
  ResolveImports r imports !! p
  = if decide (p ∈ imports) then Some (ClassifyImport r p) else None.
Proof.
  unfold ResolveImports.
  assert (H : forall l (acc : gmap string ImportType),
             fold_left (fun result importPath =>
                          <[importPath := ClassifyImport r importPath]> result) l acc !! p
             = if decide (p ∈ l) then Some (ClassifyImport r p) else acc !! p).
  { induction l as [|x l IH]; intros acc.
    - cbn. rewrite decide_False; [reflexivity | apply not_elem_of_nil].
    - cbn [fold_left]. rewrite IH. destruct (decide (p ∈ l)) as [Hl|Hl].
      + rewrite decide_True; [reflexivity | now right].
      + destruct (decide (p = x)) as [->|Hx].
        * rewrite lookup_insert_eq. rewrite decide_True; [reflexivity | left].
        * rewrite lookup_insert_ne by congruence.
          rewrite decide_False; [reflexivity|].
          intros H. apply elem_of_cons in H as [|]; contradiction. }
  rewrite H. now rewrite lookup_empty.
Qed.

(** ** The go directive and the manifest version ([go_version.go]) *)

Lemma digit_not_space c : isDigit c = true -> isRegexSpace c = false.
Proof.
  unfold isDigit, isRegexSpace. cbv zeta. generalize (nat_of_ascii c). intros n H.
  apply andb_true_iff in H as [H1 H2]. apply Nat.leb_le in H1, H2.
  repeat rewrite orb_false_iff. repeat split; apply Nat.eqb_neq; lia.
Qed.

Lemma skipRegexSpace_app ws s :
  allRegexSpace ws = true -> headIsDigit s = true -> skipRegexSpace (ws ++ s) = s.
Proof.
  unfold allRegexSpace. induction ws as [|x ws IH]; intros Hw Hs.
  - change ("" ++ s) with s. destruct s as [|d s]; [discriminate|].
    cbn [skipRegexSpace]. now rewrite (digit_not_space d Hs).
  - cbn [list_ascii_of_string forallb] in Hw. apply andb_true_iff in Hw as [Hx Hw].
    change (String x ws ++ s) with (String x (ws ++ s)).
    cbn [skipRegexSpace]. rewrite Hx. now apply IH.
Qed.

Lemma spanDigits_app d r :
  allDigits d = true -> headIsDigit r = false -> spanDigits (d ++ r) = (d, r).
Proof.
  unfold allDigits. induction d as [|x d IH]; intros Hd Hr.
  - change ("" ++ r) with r. destruct r as [|y r]; [reflexivity|].
    cbn [spanDigits]. cbn [headIsDigit] in Hr. now rewrite Hr.
  - cbn [list_ascii_of_string forallb] in Hd. apply andb_true_iff in Hd as [Hx Hd].
    change (String x d ++ r) with (String x (d ++ r)).
    cbn [spanDigits]. rewrite Hx, (IH Hd Hr). reflexivity.
Qed.

Lemma headIsDigit_app d r : d <> "" -> allDigits d = true -> headIsDigit (d ++ r) = true.
Proof.
  destruct d as [|x d]; [congruence|]. intros _. unfold allDigits.
  cbn [list_ascii_of_string forallb]. intros H. apply andb_true_iff in H as [Hx _].
  exact Hx.
Qed.

Lemma matchGoDirective_complete ws major minor rest :
  ws <> "" -> allRegexSpace ws = true ->
  major <> "" -> allDigits major = true ->
  minor <> "" -> allDigits minor = true ->
  headIsDigit rest = false ->
  matchGoDirective ("go" ++ ws ++ major ++ "." ++ minor ++ rest)
  = Some (major ++ "." ++ minor).
Proof.
  intros Hws Sws Hm Dm Hn Dn Hr.
  destruct ws as [|c ws]; [congruence|].
  unfold allRegexSpace in Sws. cbn [list_ascii_of_string forallb] in Sws.
  apply andb_true_iff in Sws as [Hc Sws].
  change ("go" ++ String c ws ++ major ++ "." ++ minor ++ rest)
    with (String "g" (String "o" (String c (ws ++ major ++ "." ++ minor ++ rest)))).
  cbn [matchGoDirective]. rewrite Hc.
  rewrite (skipRegexSpace_app ws _ Sws (headIsDigit_app _ _ Hm Dm)).
  rewrite (spanDigits_app major ("." ++ minor ++ rest) Dm eq_refl).
  destruct major as [|m0 major]; [congruence|].
  change ("." ++ minor ++ rest) with (String "." (minor ++ rest)). cbv iota.
  rewrite (spanDigits_app minor _ Dn Hr).
  destruct minor as [|n0 minor]; [congruence | reflexivity].
Qed.

Lemma findGoDirective_skips pre s : forall lineStart,
  linesAvoid "g" lineStart pre = true ->
  findGoDirective lineStart (pre ++ s) = findGoDirective true s.
Proof.
  induction pre as [|x pre IH]; intros lineStart H.
  - cbn [linesAvoid] in H. now subst lineStart.
  - cbn [linesAvoid] in H. apply andb_true_iff in H as [Hx Hp].
    change (String x pre ++ s) with (String x (pre ++ s)).
    cbn [findGoDirective].
    assert (Hnone : (if lineStart then matchGoDirective (String x (pre ++ s)) else None)
                    = None).
    { destruct lineStart; [|reflexivity]. cbn [andb] in Hx.
      apply negb_true_iff in Hx. apply Ascii.eqb_neq in Hx.
      unfold matchGoDirective.
      destruct x as [[] [] [] [] [] [] [] []]; try reflexivity.
      now contradiction Hx. }
    rewrite Hnone. now apply IH.
Qed.

(** X24: a go directive is read where the pattern says: after whole lines none
    of which begins with [g], the line [go], white space, [major.minor] gives
    [major.minor], and what follows the minor digits (a patch component, the
    rest of the file) is not read. *)
Theorem go_directive_read (ReadFile : string -> option string) (path : string)
    (pre ws major minor rest : string) :
  linesAvoid "g" true pre = true ->
  ws <> "" -> allRegexSpace ws = true ->
  major <> "" -> allDigits major = true ->
  minor <> "" -> allDigits minor = true ->
  headIsDigit rest = false ->
  ReadFile path = Some (pre ++ "go" ++ ws ++ major ++ "." ++ minor ++ rest) ->
  parseGoVersionFromFile ReadFile path = major ++ "." ++ minor.
Proof.
  intros Hpre Hws Sws Hm Dm Hn Dn Hr HF. unfold parseGoVersionFromFile. rewrite HF.
  rewrite (findGoDirective_skips pre _ true Hpre).
  assert (E : findGoDirective true ("go" ++ ws ++ major ++ "." ++ minor ++ rest)
              = Some (major ++ "." ++ minor)).
  { change ("go" ++ ws ++ major ++ "." ++ minor ++ rest)
      with (String "g" ("o" ++ ws ++ major ++ "." ++ minor ++ rest)).
    cbn [findGoDirective].
    change (String "g" ("o" ++ ws ++ major ++ "." ++ minor ++ rest))
      with ("go" ++ ws ++ major ++ "." ++ minor ++ rest).
    now rewrite matchGoDirective_complete. }
  now rewrite E.
Qed.

Lemma go_directive_read_witness :
  parseGoVersionFromFile modAndPinProject "/proj/go.mod" = "1" ++ "." ++ "24".
Proof.
  apply (go_directive_read modAndPinProject "/proj/go.mod"
           ("module example.com/app" ++ String "010" (String "010" ""))
           " " "1" "24" ("." ++ "1" ++ String "010" ""));
    solve [reflexivity | discriminate].
Defined.

Lemma normalizeGoVersion_nonempty v : v <> "" -> normalizeGoVersion v <> "".
Proof.
  intros Hv. unfold normalizeGoVersion.
  destruct (SplitByte v ".") as [|major [|minor rest]]; [exact Hv | exact Hv |].
  destruct major; discriminate.
Qed.

Lemma DetectGoVersion_nonempty ReadFile Join TrimSpace projectPath :
  DetectGoVersion ReadFile Join TrimSpace projectPath <> "".
Proof.
  unfold DetectGoVersion. cbv zeta.
  repeat match goal with
         | |- context [negb (?s =? "")] =>
             destruct (String.eqb_spec s ""); cbn [negb]
         end;
    try (now apply normalizeGoVersion_nonempty); try assumption; discriminate.
Qed.

(** X25: the manifest is asked for under a version that is never empty and
    has no patch component: the version of the registry cut to two fields,
    and the detected one only when the registry has none.  A registry whose
    manifest cannot be loaded is left as it was, a loader set earlier
    included; a loaded manifest replaces the loader and nothing else. *)
Theorem initGoStdlibLoader_effect (ReadFile : string -> option string)
    (Join : string -> string -> string) (TrimSpace : string -> string)
    (LoadManifest : string -> string -> option GoStdlibLoader)
    (reg : GoModuleRegistry) (projectPath baseURL : string) :
  let version := manifestVersion ReadFile Join TrimSpace reg projectPath in
  let reg' := initGoStdlibLoaderWithBase ReadFile Join TrimSpace LoadManifest
                reg projectPath baseURL in
  version <> ""
  /\ normalizeGoVersion version = version
  /\ version = (if GoVersion reg =? ""
                then DetectGoVersion ReadFile Join TrimSpace projectPath
                else normalizeGoVersion (GoVersion reg))
  /\ ModulePath reg' = ModulePath reg /\ GoVersion reg' = GoVersion reg
  /\ DirToImport reg' = DirToImport reg /\ ImportToDir reg' = ImportToDir reg
  /\ StdlibLoader reg' = match LoadManifest baseURL version with
                         | Some remote => Some remote
                         | None => StdlibLoader reg
                         end.
Proof.
  cbv zeta.
  assert (Hv : manifestVersion ReadFile Join TrimSpace reg projectPath
               = if GoVersion reg =? ""
                 then DetectGoVersion ReadFile Join TrimSpace projectPath
                 else normalizeGoVersion (GoVersion reg)).
  { unfold manifestVersion. cbv zeta.
    destruct (String.eqb_spec (GoVersion reg) "") as [E|E].
    - rewrite E. reflexivity.
    - apply normalizeGoVersion_nonempty in E. apply String.eqb_neq in E.
      now rewrite E. }
  split; [|split; [|split; [exact Hv|]]].
  - rewrite Hv. destruct (String.eqb_spec (GoVersion reg) "");
      [apply DetectGoVersion_nonempty | now apply normalizeGoVersion_nonempty].
  - rewrite Hv. destruct (GoVersion reg =? "").
    + pose proof (parseGoVersionFromFile_form ReadFile (Join projectPath "go.mod")) as Hmod.
      pose proof (parseGoVersionFromFile_form ReadFile (Join projectPath "go.work")) as Hwork.
      unfold DetectGoVersion. cbv zeta.
      repeat match goal with
             | |- context [negb (?s =? "")] =>
                 destruct (String.eqb_spec s ""); cbn [negb]
             end;
        try apply normalizeGoVersion_fields; try reflexivity.
      unfold readGoVersionFile.
      destruct (ReadFile _); [apply normalizeGoVersion_fields | reflexivity].
    + apply normalizeGoVersion_fields.
  - unfold initGoStdlibLoaderWithBase. cbv zeta.
    destruct (LoadManifest baseURL _); cbn; repeat split; reflexivity.
Qed.

(** ** Calls, by the form of the callee *)

(** X26: a call of a plain name is looked up under the package registered for
    [filepath.Dir] of the file path as it was given, first among the return
    types of the engine, then in the stdlib registry; when that directory is
    not registered the bare name is looked up, and only in the engine. *)
Theorem plain_call_lookup (host : Host) (name arg : string) (row : nat) (fp : string)
    (e : GoTypeInferenceEngine) (reg : GoModuleRegistry) (im : option GoImportMap) :
  name <> "" -> Contains name "." = false ->
  inferTypeFromFunctionCall host (plainCall name arg row) fp e reg im
  = match DirToImport reg !! Dir host fp with
    | Some pkg =>
        match GetReturnType e (pkg ++ "." ++ name) with
        | Some t => Some t
        | None => if pkg =? "" then None else inferTypeFromStdlibFunction pkg name reg
        end
    | None => GetReturnType e name
    end.
Proof.
  intros Hne Hdot.
  assert (H : inferTypeFromFunctionCall host (plainCall name arg row) fp e reg im
              = if name =? "" then None
                else
                  let funcName :=
                    if negb (Contains name ".") then
                      match DirToImport reg !! Dir host fp with
                      | Some packagePath => packagePath ++ "." ++ name
                      | None => name
                      end
                    else name in
                  match GetReturnType e funcName with
                  | Some typeInfo => Some typeInfo
                  | None =>
                      let idx := LastIndex funcName "." in
                      if (0 <? idx)%Z then
                        inferTypeFromStdlibFunction (take (Z.to_nat idx) funcName)
                          (drop (Z.to_nat (idx + 1)) funcName) reg
                      else None
                  end) by reflexivity.
  rewrite H. clear H. apply String.eqb_neq in Hne. rewrite Hne, Hdot. cbn [negb].
  cbv zeta. destruct (DirToImport reg !! Dir host fp) as [pkg|].
  - destruct (GetReturnType e (pkg ++ "." ++ name)); [reflexivity|].
    destruct (LastIndex_dot_split pkg name Hdot) as (Hi & Ht & Hd).
    rewrite Ht, Hd, Hi. destruct pkg; [reflexivity|].
    cbn [String.length String.eqb]. now destruct (Z.ltb_spec 0 (Z.of_nat (S (String.length pkg)))); [|lia].
  - destruct (GetReturnType e name); [reflexivity|].
    now rewrite (LastIndex_dot_none name Hdot).
Qed.

Lemma plain_call_lookup_witness :
  inferTypeFromFunctionCall s4Host (plainCall "GetUser" "1" 9) "main.go" s4Start
    (projRegistry None) None
  = match DirToImport (projRegistry None) !! Dir s4Host "main.go" with
    | Some pkg =>
        match GetReturnType s4Start (pkg ++ "." ++ "GetUser") with
        | Some t => Some t
        | None => if pkg =? "" then None
                  else inferTypeFromStdlibFunction pkg "GetUser" (projRegistry None)
        end
    | None => GetReturnType s4Start "GetUser"
    end.
Proof. apply plain_call_lookup; [discriminate | reflexivity]. Defined.

(** X27: a call through an import alias is looked up under the import path
    the alias is bound to, first among the return types of the engine, then
    in the stdlib registry; the package of the file plays no part. *)
Theorem imported_call_lookup (host : Host) (alias name arg : string) (row : nat)
    (fp : string) (e : GoTypeInferenceEngine) (reg : GoModuleRegistry)
    (m : GoImportMap) (path : string) :
  Imports m !! alias = Some path ->
  Contains name "." = false ->
  inferTypeFromFunctionCall host (selectorCall alias name arg row) fp e reg (Some m)
  = match GetReturnType e (path ++ "." ++ name) with
    | Some t => Some t
    | None => if path =? "" then None else inferTypeFromStdlibFunction path name reg
    end.
Proof.
  intros Him Hdot.
  assert (Hs : extractGoFunctionName
                 (MkNode "selector_expression" (alias ++ "." ++ name) row
                    [ fld "operand" (ident alias row); tok "." row;
                      fld "field" (leaf "field_identifier" name row) ]) (Some m)
               = path ++ "." ++ name).
  { unfold extractGoFunctionName. cbn. now rewrite Him. }
  unfold inferTypeFromFunctionCall, selectorCall.
  cbn [ChildByFieldName Kids onField fld isField String.eqb Ascii.eqb Bool.eqb].
  rewrite Hs. cbv zeta.
  assert (Hc : Contains (path ++ "." ++ name) "." = true).
  { rewrite Contains_dot_app. change ("." ++ name) with (String "." name).
    rewrite Contains_dot_cons. cbn. now rewrite orb_true_r. }
  rewrite Hc. cbn [negb].
  assert (Hn : (path ++ "." ++ name =? "") = false).
  { apply String.eqb_neq. destruct path; discriminate. }
  rewrite Hn. destruct (GetReturnType e (path ++ "." ++ name)); [reflexivity|].
  destruct (LastIndex_dot_split path name Hdot) as (Hi & Ht & Hd).
  rewrite Ht, Hd, Hi. destruct path; [reflexivity|].
  cbn [String.length String.eqb].
  now destruct (Z.ltb_spec 0 (Z.of_nat (S (String.length path)))); [|lia].
Qed.

Lemma imported_call_lookup_witness :
  inferTypeFromFunctionCall (scenarioHost []) (selectorCall "http" "Get" "url" 5)
    "/proj/main.go" (NewGoTypeInferenceEngine None) (projRegistry (Some httpLoader))
    s1Imports
  = match GetReturnType (NewGoTypeInferenceEngine None) ("net/http" ++ "." ++ "Get") with
    | Some t => Some t
    | None => if "net/http" =? "" then None
              else inferTypeFromStdlibFunction "net/http" "Get"
                     (projRegistry (Some httpLoader))
    end.
Proof. apply imported_call_lookup; reflexivity. Defined.

(** ** Assignment statements *)

(** X28: an assignment statement whose right-hand side has the type [ti]
    binds every name its parse helper reports, once per report and in order,
    each to [ti]; unlike the short variable declaration it has no exception
    for [_].  Nothing else is added to any scope. *)
Theorem assignment_binds_every_name (host : Host) (node rhs : Node) (fp fqn : string)
    (e : GoTypeInferenceEngine) (reg : GoModuleRegistry) (im : option GoImportMap)
    (ti : TypeInfo) :
  ChildByFieldName node "right" = Some rhs ->
  inferTypeFromRHS host rhs fp fqn e reg im = Some ti ->
  forall fqn' name,
    bindingsOf (processAssignmentStatement host node fp fqn e reg im) fqn' name
    = (bindingsOf e fqn' name
       ++ (if decide (fqn = fqn')
           then map (fun v => newBinding v ti fp)
                    (filter (fun v => Name v = name) (ParseAssignment host node))
           else []))%list.
Proof.
  intros HR HI fqn' name. unfold processAssignmentStatement. rewrite HR.
  assert (H : forall vs e0,
             inferTypeFromRHS host rhs fp fqn e0 reg im = Some ti ->
             bindingsOf (fold_left (assignmentStep host rhs fp fqn reg im) vs e0) fqn' name
             = (bindingsOf e0 fqn' name
                ++ (if decide (fqn = fqn')
                    then map (fun v => newBinding v ti fp)
                             (filter (fun v => Name v = name) vs)
                    else []))%list).
  { clear e HI. induction vs as [|v vs IH]; intros e0 HI.
    - cbn. case_decide; now rewrite app_nil_r.
    - cbn [fold_left]. unfold assignmentStep at 2. rewrite HI.
      rewrite IH by now apply inferTypeFromRHS_stable.
      rewrite bindingsOf_bindInScope. cbn [VarName newBinding].
      destruct (decide (Name v = name)) as [Hn|Hn].
      + rewrite filter_cons_True by exact Hn.
        destruct (decide (fqn = fqn')) as [Hf|Hf].
        * rewrite decide_True by (split; congruence).
          cbn [map]. now rewrite <- app_assoc.
        * rewrite decide_False by tauto. reflexivity.
      + rewrite filter_cons_False by exact Hn.
        rewrite (decide_False (P := fqn = fqn' /\ Name v = name)) by tauto.
        reflexivity. }
  destruct (ParseAssignment host node) as [|v vs] eqn:EV.
  - cbn. case_decide; now rewrite app_nil_r.
  - now apply H.
Qed.

Lemma assignment_binds_every_name_witness :
  map (fun b => (VarName b, TypeFQN (Type_ b), lineOf b))
      (bindingsOf (processAssignmentStatement reportAllHost
                     (assign ["_"] (plainCall "NewUser" "" 19) 19) "/proj/main.go"
                     "main.main" s4Start (projRegistry None) None) "main.main" "_")
  = [ ("_", "pkg.User", 20) ].
Proof.
  rewrite (assignment_binds_every_name reportAllHost
             (assign ["_"] (plainCall "NewUser" "" 19) 19)
             (MkNode "expression_list" (Content (plainCall "NewUser" "" 19)) 19
                     [ sub (plainCall "NewUser" "" 19) ])
             "/proj/main.go" "main.main" s4Start (projRegistry None) None userType
             eq_refl eq_refl).
  reflexivity.
Defined.
